(** * timetracker.entries: views and migrations

    A shallow embedding of [timetracker/entries/views.py] and of the two
    migrations [0004_entry_author] and [0005_auto_20150909_0538].

    The views are Django views: the function-based ones are written out
    here as state-passing functions on the relational store, the
    class-based ones as records of class attributes and overridden methods
    fed to a model of Django's generic [CreateView] / [UpdateView]
    machinery (dispatch, [ProcessFormView], [ModelFormMixin],
    [SingleObjectMixin], [login_required]). *)

From Stdlib Require Import NArith DecimalString DecimalN.
From stdpp Require Import gmap strings list fin_maps.

(** ** Identifiers *)

Abbreviation pk := N.
Abbreviation user_id := N.
Abbreviation datetime := Z.

(** ** Model layer *)

(** Modelled from the spec: [models.py] is not among the sources.  Section 3
    of the specification gives the entities and their columns; migrations
    0004 and 0005 add the nullable [author] foreign key to each of them.  A
    foreign key holds the primary key of the row it points to, [None] being
    SQL NULL (also the value of an unset attribute of a fresh instance).  A
    client has a name and an author. *)
Record Client := mkClient {
  client_name : string;
  client_author : option user_id;
}.

(** Modelled from the spec: [models.py] is not among the sources.  A
    project has a name, a client and (migration 0005) a nullable author. *)
Record Project := mkProject {
  project_name : string;
  project_client : option pk;
  project_author : option user_id;
}.

(** Modelled from the spec: [models.py] is not among the sources.  An entry
    has a start and a stop time, a project, a description and (migration
    0004) a nullable author. *)
Record Entry := mkEntry {
  entry_start : option datetime;
  entry_stop : option datetime;
  entry_project : option pk;
  entry_description : string;
  entry_author : option user_id;
}.

(** The persistent state the views act on: the three tables, keyed by
    primary key, and the session store that [django.contrib.auth] reads the
    logged-in user from. *)
Record State := mkState {
  Client_objects : gmap pk Client;
  Project_objects : gmap pk Project;
  Entry_objects : gmap pk Entry;
  sessions : gmap string user_id;
}.

(** What the generic views need to know of a model class: its table, its
    author attribute, and the instance [R()] makes, in which every
    attribute has its default (no author, no related row, empty text). *)
Class Model (R : Type) := {
  objects : State → gmap pk R;             (* R.objects.all() *)
  set_objects : gmap pk R → State → State; (* the table after a write *)
  author : R → option user_id;
  set_author : option user_id → R → R;     (* instance.author = ... *)
  new : R;                                 (* R() *)
  model_name : string;                     (* R._meta.model_name *)
}.

#[export] Instance Client_Model : Model Client := {|
  objects := Client_objects;
  set_objects t st :=
    mkState t (Project_objects st) (Entry_objects st) (sessions st);
  author := client_author;
  set_author u c := mkClient (client_name c) u;
  new := mkClient "" None;
  model_name := "client";
|}.

#[export] Instance Project_Model : Model Project := {|
  objects := Project_objects;
  set_objects t st :=
    mkState (Client_objects st) t (Entry_objects st) (sessions st);
  author := project_author;
  set_author u p := mkProject (project_name p) (project_client p) u;
  new := mkProject "" None None;
  model_name := "project";
|}.

#[export] Instance Entry_Model : Model Entry := {|
  objects := Entry_objects;
  set_objects t st :=
    mkState (Client_objects st) (Project_objects st) t (sessions st);
  author := entry_author;
  set_author u e :=
    mkEntry (entry_start e) (entry_stop e) (entry_project e)
            (entry_description e) u;
  new := mkEntry None None None "" None;
  model_name := "entry";
|}.

(** The primary key the database hands to an inserted row: one more than
    the largest key in the table, 1 for an empty table. *)
Definition next_pk {R} (t : gmap pk R) : pk :=
  N.succ (map_fold (λ k _ acc, N.max k acc) 0%N t).

(** [instance.save()]: an instance without primary key is inserted under a
    fresh one, an instance that has one overwrites its row. *)
Definition save {R} `{Model R} (ipk : option pk) (r : R) (st : State)
  : pk * State :=
  let k := match ipk with
           | Some k => k
           | None => next_pk (objects st)
           end in
  (k, set_objects (<[k := r]> (objects st)) st).

(** [qs.filter(author=user)] for a stored user. *)
Definition filter_author {R} `{Model R} (u : user_id) (qs : gmap pk R)
  : gmap pk R :=
  filter (λ kr, author kr.2 = Some u) qs.

(** ** Requests and responses *)

Module Method.
Inductive t := GET | HEAD | POST | PUT | PATCH | DELETE | OPTIONS | TRACE.
End Method.

(** [body] holds the form fields the request carries; [user] is [None] for
    [AnonymousUser]; [session] is the key of the session cookie, if the
    request carries one. *)
Record HttpRequest := mkRequest {
  method : Method.t;
  path : string;
  body : gmap string string;
  session : option string;
  user : option user_id;
}.

(** [request.POST]: Django parses the form fields of the body for a POST
    only; for every other method [request.POST] is empty, whatever the
    body holds. *)
Definition POST (request : HttpRequest) : gmap string string :=
  match method request with
  | Method.POST => body request
  | _ => ∅
  end.

Definition is_authenticated (u : option user_id) : bool :=
  match u with Some _ => true | None => false end.

Inductive Url :=
  | reverse (viewname : string)     (* the URL of a named route *)
  | url_path (p : string)           (* a literal path *)
  | login_url (next : string).      (* settings.LOGIN_URL?next=... *)

Definition reverse_lazy : string → Url := reverse.

Inductive Exception := Http404 | ValueError | TypeError | NoReverseMatch.

(** A form as the template sees it: unbound with its initial values, or
    bound to submitted data together with the errors validation found. *)
Inductive Form (C : Type) :=
  | UnboundForm (initial : option C)
  | BoundForm (data : gmap string string) (errors : gmap string (list string)).
Arguments UnboundForm {C} initial.
Arguments BoundForm {C} data errors.

Inductive ContextValue (R C : Type) :=
  | CtxForm (form : Form C)
  | CtxQuerySet (qs : gmap pk R)
  | CtxObject (obj : R)
  | CtxView.
Arguments CtxForm {R C} form.
Arguments CtxQuerySet {R C} qs.
Arguments CtxObject {R C} obj.
Arguments CtxView {R C}.

Inductive Response (R C : Type) :=
  | TemplateResponse (template_name : string)
                     (context : gmap string (ContextValue R C))
  | HttpResponseRedirect (to : Url)
  | HttpResponseNotFound
  | HttpResponseNotAllowed
  | HttpResponseOptions
  | HttpResponseServerError (exc : Exception).
Arguments TemplateResponse {R C} template_name context.
Arguments HttpResponseRedirect {R C} to.
Arguments HttpResponseNotFound {R C}.
Arguments HttpResponseNotAllowed {R C}.
Arguments HttpResponseOptions {R C}.
Arguments HttpResponseServerError {R C} exc.

(** What the request handler makes of an exception a view lets escape:
    [Http404] becomes the not-found page, anything else a server error. *)
Definition convert_exception_to_response {R C} (e : Exception)
  : Response R C :=
  match e with
  | Http404 => HttpResponseNotFound
  | _ => HttpResponseServerError e
  end.

(** Modelled from the spec: [urls.py] is not among the sources.  Section 6
    of the specification names the routes of the URLconf. *)
Definition urlpatterns : list string :=
  ["client-list"; "client_detail"; "entry-list"; "project-list";
   "project_detail"; "logout"].

Definition contains (needle s : string) : bool :=
  match String.index 0 needle s with Some _ => true | None => false end.

(** [django.shortcuts.resolve_url] on a string: the name of a route if
    there is one, else a literal URL when it looks like one. *)
Definition resolve_url (to : string) : Exception + Url :=
  if bool_decide (to ∈ urlpatterns) then inr (reverse to)
  else if contains "/" to || contains "." to then inr (url_path to)
  else inl NoReverseMatch.

Definition redirect {R C} (to : string) : Response R C :=
  match resolve_url to with
  | inr u => HttpResponseRedirect u
  | inl e => convert_exception_to_response e
  end.

Definition render {R C} (template_name : string)
    (context : gmap string (ContextValue R C)) : Response R C :=
  TemplateResponse template_name context.

(** The primary keys the database can hold and look up: integers below
    2^63.  The key of a URL is any string of digits, so a view can be
    handed a larger one. *)
Definition in_database_range (k : pk) : Prop := (k < 2 ^ 63)%N.

(** [get_object_or_404(Model, pk=k)] for a key in the database's range: the
    row, or [Http404] when no row has the key.  For a larger key the real
    lookup fails with [OverflowError] before it reaches the table; that
    failure is not described here, where such a key is just a key that
    names no row. *)
Definition get_object_or_404 {R} `{Model R} (k : pk) (st : State)
  : Exception + R :=
  match objects st !! k with
  | Some r => inr r
  | None => inl Http404
  end.

(** ** Form layer *)

(** Modelled from the spec: [forms.py] is not among the sources.  Section 6
    of the specification lists the declared fields of each form; the
    records below are the cleaned data of a form of each kind.  The one
    field of [ClientForm]: name. *)
Record ClientData := mkClientData {
  cd_name : string;
}.

(** Modelled from the spec: [forms.py] is not among the sources.  The
    fields of [ProjectForm] (section 6): name, client. *)
Record ProjectData := mkProjectData {
  pd_name : string;
  pd_client : option pk;
}.

(** Modelled from the spec: [forms.py] is not among the sources.  The
    fields of [EntryForm] (section 6): start, stop, project, description. *)
Record EntryData := mkEntryData {
  ed_start : option datetime;
  ed_stop : option datetime;
  ed_project : option pk;
  ed_description : string;
}.

(** A model form writes its declared fields, and only those, onto the
    instance ([construct_instance]) and reads them back as initial values
    ([model_to_dict]). *)
Class ModelForm (R C : Type) := {
  construct_instance : C → R → R;
  model_to_dict : R → C;
}.

#[export] Instance ClientForm_fields : ModelForm Client ClientData := {|
  construct_instance d c := mkClient (cd_name d) (client_author c);
  model_to_dict c := mkClientData (client_name c);
|}.

#[export] Instance ProjectForm_fields : ModelForm Project ProjectData := {|
  construct_instance d p :=
    mkProject (pd_name d) (pd_client d) (project_author p);
  model_to_dict p := mkProjectData (project_name p) (project_client p);
|}.

#[export] Instance EntryForm_fields : ModelForm Entry EntryData := {|
  construct_instance d e :=
    mkEntry (ed_start d) (ed_stop d) (ed_project d) (ed_description d)
            (entry_author e);
  model_to_dict e :=
    mkEntryData (entry_start e) (entry_stop e) (entry_project e)
                (entry_description e);
|}.

(** How a form class validates is declared in the missing [forms.py] and
    [models.py], so it is a parameter of the views: [errors] is
    [form.errors] for the submitted data (validation may consult the store
    and, for a form bound to a stored instance, that instance's key),
    [cleaned_data] is [form.cleaned_data], read only when the form is valid,
    and [partial_clean] is what validating an invalid form leaves written on
    [form.instance] (the fields that did validate). *)
Record FormClass (R C : Type) := mkFormClass {
  errors : State → option pk → gmap string string → gmap string (list string);
  cleaned_data : State → option pk → gmap string string → C;
  partial_clean : State → option pk → gmap string string → R → R;
}.
Arguments errors {R C} f st ipk data.
Arguments cleaned_data {R C} f st ipk data.
Arguments partial_clean {R C} f st ipk data r.

(** [form.is_valid()] of a bound form: there are no errors. *)
Definition is_valid {R C} (f : FormClass R C) (st : State) (ipk : option pk)
    (data : gmap string string) : bool :=
  bool_decide (errors f st ipk data = ∅).

(** ** Django's generic editing views *)

(** A class-based view: its class attributes and the methods a subclass
    may override.  [login_required_mixin] says whether [LoginRequiredMixin]
    is among the bases.  [form_valid] receives [form.instance] (with the key
    of the row it was loaded from, if any) after the cleaned data has been
    written on it; [get_context_data] receives the context the base classes
    built; [get_queryset] returns the rows [get_object] looks the target up
    in, or the exception that building the queryset raises. *)
Record View (R C : Type) := mkView {
  login_required_mixin : bool;
  form_class : FormClass R C;
  template_name : string;
  success_url : Url;
  form_valid : HttpRequest → option pk → R → State → Response R C * State;
  get_context_data : HttpRequest → State →
                     gmap string (ContextValue R C) →
                     gmap string (ContextValue R C);
  get_queryset : HttpRequest → State → Exception + gmap pk R;
}.
Arguments login_required_mixin {R C} v.
Arguments form_class {R C} v.
Arguments template_name {R C} v.
Arguments success_url {R C} v.
Arguments form_valid {R C} v request ipk instance st.
Arguments get_context_data {R C} v request st context.
Arguments get_queryset {R C} v request st.

Section Generic.
Context {R C : Type} `{!Model R} `{!ModelForm R C}.

Local Abbreviation Handler :=
  (HttpRequest → State → Response R C * State).

(** [django.contrib.auth.decorators.login_required]. *)
Definition login_required (view_func : Handler) : Handler :=
  λ request st,
    if is_authenticated (user request) then view_func request st
    else (HttpResponseRedirect (login_url (path request)), st).

(** [ModelFormMixin.form_valid]: save the instance, redirect. *)
Definition ModelFormMixin_form_valid (success : Url)
    (ipk : option pk) (instance : R) (st : State)
  : Response R C * State :=
  let '(_, st') := save ipk instance st in
  (HttpResponseRedirect success, st').

(** [SingleObjectMixin.get_queryset]: every row of the model. *)
Definition SingleObjectMixin_get_queryset (st : State)
  : Exception + gmap pk R :=
  inr (objects st).

(** The context the base classes build.  [SingleObjectMixin] enters the
    view's object, when it has one, under ["object"] and under the
    model's name, then the keyword arguments (the form) on top;
    [ContextMixin] adds the view unless that key is taken. *)
Definition SingleObjectMixin_get_context_data
    (object : option R) (form : Form C)
  : gmap string (ContextValue R C) :=
  let context : gmap string (ContextValue R C) :=
    match object with
    | Some obj =>
        <[model_name := CtxObject obj]> (<["object" := CtxObject obj]> ∅)
    | None => ∅
    end in
  let context := <["form" := CtxForm form]> context in
  match context !! "view" with
  | Some _ => context
  | None => <["view" := CtxView]> context
  end.

(** [ProcessFormView.get]. *)
Definition ProcessFormView_get (v : View R C) (object : option (pk * R))
  : Handler :=
  λ request st,
    let form := UnboundForm (model_to_dict <$> (snd <$> object)) in
    (render (template_name v)
       (get_context_data v request st
          (SingleObjectMixin_get_context_data (snd <$> object) form)),
     st).

(** [ProcessFormView.post]: the form is bound to the posted data and to
    the view's object (a fresh instance when there is none); a valid form
    goes to [form_valid], an invalid one is rendered again.  Validation
    writes on the instance, which for an update view is the very object
    the context shows. *)
Definition ProcessFormView_post (v : View R C) (object : option (pk * R))
  : Handler :=
  λ request st,
    let ipk := fst <$> object in
    let instance := from_option snd new object in
    let data := POST request in
    if is_valid (form_class v) st ipk data then
      form_valid v request ipk
        (construct_instance (cleaned_data (form_class v) st ipk data)
                            instance) st
    else
      let form := BoundForm data (errors (form_class v) st ipk data) in
      let shown :=
        partial_clean (form_class v) st ipk data <$> (snd <$> object) in
      (render (template_name v)
         (get_context_data v request st
            (SingleObjectMixin_get_context_data shown form)),
       st).

(** [View.dispatch] of an editing view: [get] also answers HEAD, [put]
    is [post], OPTIONS is answered by [View.options], and the remaining
    methods have no handler. *)
Definition View_dispatch (get post : Handler) : Handler :=
  λ request st,
    match method request with
    | Method.GET | Method.HEAD => get request st
    | Method.POST | Method.PUT => post request st
    | Method.OPTIONS => (HttpResponseOptions, st)
    | Method.PATCH | Method.DELETE | Method.TRACE =>
        (HttpResponseNotAllowed, st)
    end.

(** [LoginRequiredMixin.dispatch], for the classes that list the mixin. *)
Definition dispatch (v : View R C) (inner : Handler) : Handler :=
  if login_required_mixin v then login_required inner else inner.

(** [CreateView]: the view has no object. *)
Definition CreateView (v : View R C) : Handler :=
  dispatch v
    (View_dispatch (ProcessFormView_get v None)
                   (ProcessFormView_post v None)).

(** [SingleObjectMixin.get_object] for a key in the database's range: the
    row of the view's queryset with the primary key of the URL, [Http404]
    when there is none.  As with [get_object_or_404], the [OverflowError]
    of a lookup with a larger key is not described. *)
Definition get_object (v : View R C) (k : pk) (request : HttpRequest)
    (st : State) : Exception + R :=
  match get_queryset v request st with
  | inl e => inl e
  | inr qs =>
      match qs !! k with
      | Some r => inr r
      | None => inl Http404
      end
  end.

(** [BaseUpdateView.get] and [.post]: both first fetch the object. *)
Definition BaseUpdateView_get (v : View R C) (k : pk) : Handler :=
  λ request st,
    match get_object v k request st with
    | inl e => (convert_exception_to_response e, st)
    | inr obj => ProcessFormView_get v (Some (k, obj)) request st
    end.

Definition BaseUpdateView_post (v : View R C) (k : pk) : Handler :=
  λ request st,
    match get_object v k request st with
    | inl e => (convert_exception_to_response e, st)
    | inr obj => ProcessFormView_post v (Some (k, obj)) request st
    end.

Definition UpdateView (v : View R C) (k : pk) : Handler :=
  dispatch v (View_dispatch (BaseUpdateView_get v k)
                            (BaseUpdateView_post v k)).
End Generic.

(** [form.instance.author = self.request.user]: the related-object
    descriptor accepts a [User] instance and raises [ValueError] for
    anything else, which is what [AnonymousUser] is. *)
Definition assign_author {R} `{!Model R} (u : option user_id) (instance : R)
  : Exception + R :=
  match u with
  | Some u => inr (set_author (Some u) instance)
  | None => inl ValueError
  end.

(** [qs.filter(author=self.request.user)]: the rows of that user; the
    lookup cannot turn an [AnonymousUser] into a key and raises. *)
Definition QuerySet_filter_author {R} `{!Model R} (u : option user_id)
    (qs : gmap pk R) : Exception + gmap pk R :=
  match u with
  | Some u => inr (filter_author u qs)
  | None => inl TypeError
  end.

(** [django.contrib.auth.get_user], as the authentication middleware calls
    it: the user stored in the session of the request's cookie. *)
Definition get_user (st : State) (key : option string) : option user_id :=
  key ≫= λ k, sessions st !! k.

(** [django.contrib.auth.logout]: the session is flushed (its record is
    deleted from the store, the request gets a fresh empty one) and the
    request's user becomes anonymous. *)
Definition auth_logout (request : HttpRequest) (st : State)
  : HttpRequest * State :=
  (mkRequest (method request) (path request) (body request) None None,
   mkState (Client_objects st) (Project_objects st) (Entry_objects st)
           (match session request with
            | Some k => delete k (sessions st)
            | None => sessions st
            end)).

(** ** The views of [entries/views.py] *)

Section Views.
Variable ClientForm : FormClass Client ClientData.
Variable ProjectForm : FormClass Project ProjectData.
Variable EntryForm : FormClass Entry EntryData.

(** *** Clients *)

(** [clients(request)], "deprecated by ClientCreateView". *)
Definition clients (request : HttpRequest) (st : State)
  : Response Client ClientData * State :=
  match
    match method request with
    | Method.POST =>
        let data := POST request in
        if is_valid ClientForm st None data then
          (* form.save() *)
          let '(_, st') :=
            save None
              (construct_instance (cleaned_data ClientForm st None data) new)
              st in
          inl (redirect "client-list", st')
        else inr (BoundForm data (errors ClientForm st None data))
    | _ => inr (UnboundForm None)
    end
  with
  | inl done => done
  | inr form =>
      let client_list := objects st in
      (render "clients.html"
         (<["client_list" := CtxQuerySet client_list]>
            (<["form" := CtxForm form]> ∅)),
       st)
  end.

Definition ClientCreateView : View Client ClientData := {|
  login_required_mixin := false;
  form_class := ClientForm;
  template_name := "clients.html";
  success_url := reverse_lazy "client-list";
  form_valid request ipk instance st :=
    match assign_author (user request) instance with
    | inr instance' =>
        ModelFormMixin_form_valid (reverse_lazy "client-list")
                                  ipk instance' st
    | inl e => (convert_exception_to_response e, st)
    end;
  get_context_data request st context :=
    <["client_list" := CtxQuerySet (objects st)]> context;
  get_queryset request st := SingleObjectMixin_get_queryset st;
|}.

(** [client_detail(request, pk)], "deprecated by ClientUpdateView". *)
Definition client_detail (request : HttpRequest) (k : pk) (st : State)
  : Response Client ClientData * State :=
  match get_object_or_404 k st with
  | inl e => (convert_exception_to_response e, st)
  | inr client =>
      match
        match method request with
        | Method.POST =>
            let data := POST request in
            if is_valid ClientForm st None data then
              let client' :=
                mkClient (cd_name (cleaned_data ClientForm st None data))
                         (client_author client) in
              let '(_, st') := save (Some k) client' st in
              inl (redirect "client-list", st')
            else inr (BoundForm data (errors ClientForm st None data))
        | _ =>
            inr (UnboundForm (Some (mkClientData (client_name client))))
        end
      with
      | inl done => done
      | inr form =>
          (render "client_detail.html"
             (<["client" := CtxObject client]>
                (<["form" := CtxForm form]> ∅)),
           st)
      end
  end.

Definition ClientUpdateView : View Client ClientData := {|
  login_required_mixin := true;
  form_class := ClientForm;
  template_name := "client_detail.html";
  success_url := reverse_lazy "client-list";
  form_valid request ipk instance st :=
    ModelFormMixin_form_valid (reverse_lazy "client-list") ipk instance st;
  get_context_data request st context := context;
  get_queryset request st :=
    match SingleObjectMixin_get_queryset st with
    | inr qs => QuerySet_filter_author (user request) qs
    | inl e => inl e
    end;
|}.

(** *** Entries *)

(** [entries(request)], "deprecated by EntryCreateView". *)
Definition entries (request : HttpRequest) (st : State)
  : Response Entry EntryData * State :=
  match
    match method request with
    | Method.POST =>
        let data := POST request in
        if is_valid EntryForm st None data then
          let cleaned := cleaned_data EntryForm st None data in
          let entry : Entry := new in
          let entry :=
            mkEntry (ed_start cleaned) (entry_stop entry)
                    (entry_project entry) (entry_description entry)
                    (entry_author entry) in
          let entry :=
            mkEntry (entry_start entry) (ed_stop cleaned)
                    (entry_project entry) (entry_description entry)
                    (entry_author entry) in
          let entry :=
            mkEntry (entry_start entry) (entry_stop entry)
                    (ed_project cleaned) (entry_description entry)
                    (entry_author entry) in
          let entry :=
            mkEntry (entry_start entry) (entry_stop entry)
                    (entry_project entry) (ed_description cleaned)
                    (entry_author entry) in
          let '(_, st') := save None entry st in
          inl (redirect "entry-list", st')
        else inr (BoundForm data (errors EntryForm st None data))
    | _ => inr (UnboundForm None)
    end
  with
  | inl done => done
  | inr entry_form =>
      let entry_list := objects st in
      (render "entries.html"
         (<["entry_list" := CtxQuerySet entry_list]>
            (<["entry_form" := CtxForm entry_form]> ∅)),
       st)
  end.

Definition EntryCreateView : View Entry EntryData := {|
  login_required_mixin := true;
  form_class := EntryForm;
  success_url := reverse_lazy "entry-list";
  template_name := "entries.html";
  get_context_data request st context :=
    <["entry_list" := CtxQuerySet (objects st)]> context;
  form_valid request ipk instance st :=
    match assign_author (user request) instance with
    | inr instance' =>
        ModelFormMixin_form_valid (reverse_lazy "entry-list")
                                  ipk instance' st
    | inl e => (convert_exception_to_response e, st)
    end;
  get_queryset request st :=
    match SingleObjectMixin_get_queryset st with
    | inr qs => QuerySet_filter_author (user request) qs
    | inl e => inl e
    end;
|}.

(** *** Projects *)

(** [projects(request)], "deprecated by ProjectCreateView". *)
Definition projects (request : HttpRequest) (st : State)
  : Response Project ProjectData * State :=
  match
    match method request with
    | Method.POST =>
        let data := POST request in
        if is_valid ProjectForm st None data then
          (* Project.objects.create(name=..., client=...) *)
          let cleaned := cleaned_data ProjectForm st None data in
          let '(_, st') :=
            save None
              (mkProject (pd_name cleaned) (pd_client cleaned)
                         (project_author new))
              st in
          inl (redirect "project-list", st')
        else inr (BoundForm data (errors ProjectForm st None data))
    | _ => inr (UnboundForm None)
    end
  with
  | inl done => done
  | inr form =>
      let project_list := objects st in
      (render "projects.html"
         (<["project_list" := CtxQuerySet project_list]>
            (<["form" := CtxForm form]> ∅)),
       st)
  end.

Definition ProjectCreateView : View Project ProjectData := {|
  login_required_mixin := true;
  form_class := ProjectForm;
  success_url := reverse_lazy "project-list";
  template_name := "projects.html";
  get_context_data request st context :=
    <["project_list" := CtxQuerySet (objects st)]> context;
  form_valid request ipk instance st :=
    match assign_author (user request) instance with
    | inr instance' =>
        ModelFormMixin_form_valid (reverse_lazy "project-list")
                                  ipk instance' st
    | inl e => (convert_exception_to_response e, st)
    end;
  get_queryset request st :=
    match SingleObjectMixin_get_queryset st with
    | inr qs => QuerySet_filter_author (user request) qs
    | inl e => inl e
    end;
|}.

(** [project_detail(request, pk)], "deprecated by ProjectUpdateView".
    The project is fetched a second time before rendering. *)
Definition project_detail (request : HttpRequest) (k : pk) (st : State)
  : Response Project ProjectData * State :=
  match get_object_or_404 k st with
  | inl e => (convert_exception_to_response e, st)
  | inr project =>
      match
        match method request with
        | Method.POST =>
            let data := POST request in
            if is_valid ProjectForm st None data then
              let cleaned := cleaned_data ProjectForm st None data in
              let project :=
                mkProject (pd_name cleaned) (project_client project)
                          (project_author project) in
              let project :=
                mkProject (project_name project) (pd_client cleaned)
                          (project_author project) in
              let '(_, st') := save (Some k) project st in
              inl (redirect "project-list", st')
            else inr (BoundForm data (errors ProjectForm st None data))
        | _ =>
            inr (UnboundForm
                   (Some (mkProjectData (project_name project)
                                        (project_client project))))
        end
      with
      | inl done => done
      | inr form =>
          match get_object_or_404 k st with
          | inl e => (convert_exception_to_response e, st)
          | inr project =>
              (render "project_detail.html"
                 (<["project" := CtxObject project]>
                    (<["form" := CtxForm form]> ∅)),
               st)
          end
      end
  end.

Definition ProjectUpdateView : View Project ProjectData := {|
  login_required_mixin := true;
  form_class := ProjectForm;
  template_name := "project_detail.html";
  success_url := reverse_lazy "project-list";
  form_valid request ipk instance st :=
    ModelFormMixin_form_valid (reverse_lazy "project-list") ipk instance st;
  get_context_data request st context := context;
  get_queryset request st :=
    match SingleObjectMixin_get_queryset st with
    | inr qs => QuerySet_filter_author (user request) qs
    | inl e => inl e
    end;
|}.

(** *** Redirect and logout *)

(** [ClientRedirectView]: a [RedirectView] behind the login check.  Every
    method it has a handler for (all but TRACE) is answered like GET, with
    a temporary redirect ([permanent = False]) to the client list. *)
Definition ClientRedirectView {R C} (request : HttpRequest) (st : State)
  : Response R C * State :=
  login_required
    (λ request st,
       match method request with
       | Method.TRACE => (HttpResponseNotAllowed, st)
       | _ => (HttpResponseRedirect (reverse_lazy "client-list"), st)
       end)
    request st.

Definition logout {R C} (request : HttpRequest) (st : State)
  : Response R C * State :=
  let '(_, st') := auth_logout request st in
  (redirect "/", st').
End Views.

(** ** The deprecated views as the specification describes them *)







(** ** Histories of requests *)

(** One request served by one of the views of [views.py], whatever the
    request and whichever row it names, takes the store from [st] to
    [st']. *)
Section Steps.
Variable ClientForm : FormClass Client ClientData.
Variable ProjectForm : FormClass Project ProjectData.
Variable EntryForm : FormClass Entry EntryData.

Inductive step : State → State → Prop :=
  | step_clients request st :
      step st (clients ClientForm request st).2
  | step_ClientCreateView request st :
      step st (CreateView (ClientCreateView ClientForm) request st).2
  | step_client_detail request k st :
      step st (client_detail ClientForm request k st).2
  | step_ClientUpdateView request k st :
      step st (UpdateView (ClientUpdateView ClientForm) k request st).2
  | step_entries request st :
      step st (entries EntryForm request st).2
  | step_EntryCreateView request st :
      step st (CreateView (EntryCreateView EntryForm) request st).2
  | step_projects request st :
      step st (projects ProjectForm request st).2
  | step_ProjectCreateView request st :
      step st (CreateView (ProjectCreateView ProjectForm) request st).2
  | step_project_detail request k st :
      step st (project_detail ProjectForm request k st).2
  | step_ProjectUpdateView request k st :
      step st (UpdateView (ProjectUpdateView ProjectForm) k request st).2
  | step_ClientRedirectView request st :
      step st (@ClientRedirectView Client ClientData request st).2
  | step_logout request st :
      step st (@logout Client ClientData request st).2.
End Steps.

(** ** A concrete form layer *)

Module SpecForms.
Definition required : list string := ["This field is required."].
Definition invalid_choice : list string :=
  ["Select a valid choice. That choice is not one of the available choices."].
Definition invalid_datetime : list string := ["Enter a valid date/time."].

(** A posted field; an empty value counts as missing. *)
Definition field_value (data : gmap string string) (f : string)
  : option string :=
  match data !! f with
  | Some EmptyString => None
  | o => o
  end.

Definition parse_N (s : string) : option N :=
  N.of_uint <$> NilEmpty.uint_of_string s.

Definition clean_char (data : gmap string string) (f : string)
  : list string + string :=
  match field_value data f with
  | Some v => inr v
  | None => inl required
  end.

(** A foreign-key field: the posted value must be the key of a row. *)
Definition clean_choice {R} (choices : gmap pk R)
    (data : gmap string string) (f : string) : list string + pk :=
  match field_value data f with
  | None => inl required
  | Some v =>
      match parse_N v with
      | Some k =>
          if bool_decide (is_Some (choices !! k)) then inr k
          else inl invalid_choice
      | None => inl invalid_choice
      end
  end.

(** A date-time field; in this instance date-times are posted as seconds
    since the epoch. *)
Definition clean_datetime (data : gmap string string) (f : string)
  : list string + datetime :=
  match field_value data f with
  | None => inl required
  | Some v =>
      match parse_N v with
      | Some n => inr (Z.of_N n)
      | None => inl invalid_datetime
      end
  end.

Definition error_of {A} (f : string) (r : list string + A)
  : gmap string (list string) :=
  match r with
  | inl e => {[ f := e ]}
  | inr _ => ∅
  end.

Definition value_of {A} (r : list string + A) : option A :=
  match r with
  | inl _ => None
  | inr a => Some a
  end.

(** Modelled from the spec: [forms.py] is not among the sources.
    [ClientForm] declares the field name (section 6), taken as
    required. *)
Definition ClientForm : FormClass Client ClientData := {|
  errors st ipk data := error_of "name" (clean_char data "name");
  cleaned_data st ipk data :=
    mkClientData (default "" (value_of (clean_char data "name")));
  partial_clean st ipk data c :=
    mkClient (default (client_name c) (value_of (clean_char data "name")))
             (client_author c);
|}.

(** Modelled from the spec: [forms.py] is not among the sources.
    [ProjectForm] declares the fields name and client (section 6), taken
    as required; client is a choice among the stored clients. *)
Definition ProjectForm : FormClass Project ProjectData := {|
  errors st ipk data :=
    error_of "name" (clean_char data "name")
    ∪ error_of "client" (clean_choice (Client_objects st) data "client");
  cleaned_data st ipk data :=
    mkProjectData
      (default "" (value_of (clean_char data "name")))
      (value_of (clean_choice (Client_objects st) data "client"));
  partial_clean st ipk data p :=
    mkProject
      (default (project_name p) (value_of (clean_char data "name")))
      (match clean_choice (Client_objects st) data "client" with
       | inr k => Some k
       | inl _ => project_client p
       end)
      (project_author p);
|}.

(** Modelled from the spec: [forms.py] is not among the sources.
    [EntryForm] declares the fields start, stop, project and description
    (section 6), taken as required; project is a choice among the stored
    projects. *)
Definition EntryForm : FormClass Entry EntryData := {|
  errors st ipk data :=
    error_of "start" (clean_datetime data "start")
    ∪ error_of "stop" (clean_datetime data "stop")
    ∪ error_of "project" (clean_choice (Project_objects st) data "project")
    ∪ error_of "description" (clean_char data "description");
  cleaned_data st ipk data :=
    mkEntryData
      (value_of (clean_datetime data "start"))
      (value_of (clean_datetime data "stop"))
      (value_of (clean_choice (Project_objects st) data "project"))
      (default "" (value_of (clean_char data "description")));
  partial_clean st ipk data e :=
    mkEntry
      (match clean_datetime data "start" with
       | inr t => Some t
       | inl _ => entry_start e
       end)
      (match clean_datetime data "stop" with
       | inr t => Some t
       | inl _ => entry_stop e
       end)
      (match clean_choice (Project_objects st) data "project" with
       | inr k => Some k
       | inl _ => entry_project e
       end)
      (default (entry_description e)
               (value_of (clean_char data "description")))
      (entry_author e);
|}.
End SpecForms.

(** ** Migrations *)

Module Migrations.
(** The model a foreign key points to: the swappable user model named by
    [settings.AUTH_USER_MODEL], or a model of some app. *)
Inductive ModelRef :=
  | AUTH_USER_MODEL
  | model_ref (app_label name : string).

Inductive Field :=
  | ForeignKey (to : ModelRef) (null : bool)
  | OtherField (description : string) (null : bool).

Definition field_null (f : Field) : bool :=
  match f with
  | ForeignKey _ null => null
  | OtherField _ null => null
  end.

(** A table: its columns, and its rows as maps from column name to value,
    [None] being SQL NULL. *)
Record Table := mkTable {
  fields : gmap string Field;
  rows : gmap pk (gmap string (option string));
}.

(** The tables of the app, keyed by lower-cased model name. *)
Abbreviation Database := (gmap string Table).

Inductive Dependency :=
  | swappable_dependency (setting : ModelRef)
  | migration (app_label name : string).

Inductive Operation :=
  | AddField (model_name name : string) (field : Field)
  | RemoveField (model_name name : string)
  | AlterField (model_name name : string) (field : Field)
  | RunPython (code : Database → Database).

Record Migration := mkMigration {
  dependencies : list Dependency;
  operations : list Operation;
}.

(** Applying one operation, where this model describes it; [None]
    otherwise.  Adding a column is described for an existing table that
    lacks the column: the existing rows get NULL in it, which a column that
    is not nullable accepts only when there are no rows.  What happens when
    the column is already there depends on the database (one refuses, one
    rebuilds the table) and is left out: a migration runs once, after the
    migrations it depends on, so it never meets its own column. *)
Definition database_forwards (op : Operation) (db : Database)
  : option Database :=
  match op with
  | AddField m name field =>
      t ← db !! m;
      match fields t !! name with
      | Some _ => None
      | None =>
          if field_null field || bool_decide (rows t = ∅) then
            Some (<[m := mkTable (<[name := field]> (fields t))
                                 (insert name None <$> rows t)]> db)
          else None
      end
  | RemoveField m name =>
      t ← db !! m;
      _ ← fields t !! name;
      Some (<[m := mkTable (delete name (fields t))
                           (delete name <$> rows t)]> db)
  | AlterField m name field =>
      t ← db !! m;
      _ ← fields t !! name;
      Some (<[m := mkTable (<[name := field]> (fields t)) (rows t)]> db)
  | RunPython code => Some (code db)
  end.

Fixpoint apply_operations (ops : list Operation) (db : Database)
  : option Database :=
  match ops with
  | [] => Some db
  | op :: ops' => database_forwards op db ≫= apply_operations ops'
  end.

Definition apply (m : Migration) (db : Database) : option Database :=
  apply_operations (operations m) db.

(** [0004_entry_author.py] *)
Definition Migration_0004_entry_author : Migration := {|
  dependencies :=
    [ swappable_dependency AUTH_USER_MODEL;
      migration "entries" "0003_create_fk_to_client" ];
  operations :=
    [ AddField "entry" "author" (ForeignKey AUTH_USER_MODEL true) ];
|}.

(** [0005_auto_20150909_0538.py] *)
Definition Migration_0005_auto_20150909_0538 : Migration := {|
  dependencies :=
    [ swappable_dependency AUTH_USER_MODEL;
      migration "entries" "0004_entry_author" ];
  operations :=
    [ AddField "client" "author" (ForeignKey AUTH_USER_MODEL true);
      AddField "project" "author" (ForeignKey AUTH_USER_MODEL true) ];
|}.

(** [db'] extends [db] additively: every table is still there with the
    same rows; every column it had is still there, unchanged, and holds
    the same value in every row; every column that is new holds NULL in
    every row. *)
Definition additive_extension (db db' : Database) : Prop :=
  ∀ m t, db !! m = Some t →
    ∃ t', db' !! m = Some t'
      ∧ fields t ⊆ fields t'
      ∧ dom (rows t') = dom (rows t)
      ∧ ∀ k r, rows t !! k = Some r →
          ∃ r', rows t' !! k = Some r'
            ∧ (∀ c, is_Some (fields t !! c) → r' !! c = r !! c)
            ∧ (∀ c, fields t !! c = None → is_Some (fields t' !! c) →
                    r' !! c = Some None).

(** The table [t] with a new nullable [author] foreign key to the user
    model, NULL in every row. *)
Definition with_author_column (t : Table) : Table :=
  mkTable (<["author" := ForeignKey AUTH_USER_MODEL true]> (fields t))
          (insert "author" None <$> rows t).

(** A database before 0004: the three tables without author columns,
    and what the two migrations make of it. *)
Definition sample_client_table : Table :=
  mkTable {[ "name" := OtherField "CharField" false ]}
          {[ 1%N := {[ "name" := Some "Acme" ]} ]}.

Definition sample_project_table : Table :=
  mkTable (<["name" := OtherField "CharField" false]>
             {[ "client" := ForeignKey (model_ref "entries" "Client")
                                       false ]})
          {[ 1%N := <["name" := Some "Site"]> {[ "client" := Some "1" ]} ]}.

Definition sample_entry_table : Table :=
  mkTable (<["start" := OtherField "DateTimeField" false]>
             {[ "project" := ForeignKey (model_ref "entries" "Project")
                                        false ]})
          {[ 1%N := <["start" := Some "2015-09-09 05:38"]>
                      {[ "project" := Some "1" ]} ]}.

Definition sample_db : Database :=
  <["client" := sample_client_table]>
    (<["project" := sample_project_table]>
       (<["entry" := sample_entry_table]> ∅)).

Definition sample_db_0004 : Database :=
  <["entry" := with_author_column sample_entry_table]> sample_db.

Definition sample_db_0005 : Database :=
  <["project" := with_author_column sample_project_table]>
    (<["client" := with_author_column sample_client_table]>
       sample_db_0004).
End Migrations.

(** ** Sample data *)

(** A store with one client, one project and one entry, all authored by
    user 2, and a session in which user 1 is logged in. *)
Definition sample_state : State := {|
  Client_objects := {[ 1%N := mkClient "Initech" (Some 2%N) ]};
  Project_objects := {[ 1%N := mkProject "Site" (Some 1%N) (Some 2%N) ]};
  Entry_objects :=
    {[ 1%N := mkEntry (Some 100%Z) (Some 200%Z) (Some 1%N) "survey"
                      (Some 2%N) ]};
  sessions := {[ "abc" := 1%N ]};
|}.

(** Requests of user 1 (logged in through session "abc") and of a visitor
    who is not logged in. *)
Definition request_of (u : option user_id) (m : Method.t) (p : string)
    (data : list (string * string)) : HttpRequest :=
  mkRequest m p (list_to_map data)
            (match u with Some _ => Some "abc" | None => None end) u.

(** ** Properties of view classes and of outcomes *)

Section Predicates.
Context {R C : Type} `{!Model R} `{!ModelForm R C}.
Implicit Types (v : View R C) (request : HttpRequest) (st : State).

(** The request gets past the view's [dispatch]. *)
Definition passes_login v request : Prop :=
  login_required_mixin v = false ∨ is_Some (user request).

(** A view class whose [form_valid] is the one the three create views
    share: set the author to the requesting user, then save and
    redirect. *)
Definition stamps_author v : Prop :=
  ∀ request ipk instance st,
    form_valid v request ipk instance st
    = match assign_author (user request) instance with
      | inr instance' =>
          ModelFormMixin_form_valid (success_url v) ipk instance' st
      | inl e => (convert_exception_to_response e, st)
      end.

(** A view class that keeps [ModelFormMixin.form_valid]. *)
Definition inherits_form_valid v : Prop :=
  ∀ request ipk instance st,
    form_valid v request ipk instance st
    = ModelFormMixin_form_valid (success_url v) ipk instance st.

(** A view class whose [get_context_data] leaves the form of the base
    context in place. *)
Definition keeps_form v : Prop :=
  ∀ request st context,
    get_context_data v request st context !! "form" = context !! "form".

(** A view class whose queryset is filtered by the requesting user. *)
Definition filters_by_author v : Prop :=
  ∀ request st,
    get_queryset v request st
    = QuerySet_filter_author (user request) (objects st).

(** Every row of [t] is still in [t'], under its key and with its
    author. *)
Definition table_keeps_authors (t t' : gmap pk R) : Prop :=
  ∀ k r, t !! k = Some r → ∃ r', t' !! k = Some r' ∧ author r' = author r.

(** [st'] differs from [st] at most in the table of [R], in which every
    row is still there with its author. *)
Definition writes_own_table (st st' : State) : Prop :=
  ∃ t', st' = set_objects t' st ∧ table_keeps_authors (objects st) t'.

(** [st'] is [st] with one row inserted into the table of [R], under
    the key the database hands out next, and nothing else changed. *)
Definition inserted (st st' : State) (row : R) : Prop :=
  objects st !! next_pk (objects st) = None
  ∧ st' = set_objects (<[next_pk (objects st) := row]> (objects st)) st.









End Predicates.

(** Every row of every table of [st] is still in [st'], with its author. *)
Definition keeps_authors (st st' : State) : Prop :=
  table_keeps_authors (Client_objects st) (Client_objects st')
  ∧ table_keeps_authors (Project_objects st) (Project_objects st')
  ∧ table_keeps_authors (Entry_objects st) (Entry_objects st').


(** Sample requests: user 1 (logged in through session "abc") and a visitor
    who is not logged in. *)
Definition acme_request : HttpRequest :=
  request_of (Some 1%N) Method.POST "/clients/" [("name", "Acme")].

Definition anonymous_acme_request : HttpRequest :=
  request_of None Method.POST "/clients/" [("name", "Acme")].

Definition anonymous_get_request : HttpRequest :=
  request_of None Method.GET "/clients/" [].

Definition list_request (p : string) : HttpRequest :=
  request_of (Some 1%N) Method.GET p [].

Definition full_request : HttpRequest :=
  request_of (Some 1%N) Method.POST "/create/"
    [("name", "Acme"); ("client", "1"); ("start", "300"); ("stop", "400");
     ("project", "1"); ("description", "drawing")].

Definition rename_request : HttpRequest :=
  request_of (Some 1%N) Method.POST "/clients/1/" [("name", "Mine")].


(** A store in which user 1 owns a client and a project. *)
Definition own_state : State := {|
  Client_objects := {[ 1%N := mkClient "Initech" (Some 1%N) ]};
  Project_objects := {[ 1%N := mkProject "Site" (Some 1%N) (Some 1%N) ]};
  Entry_objects := ∅;
  sessions := {[ "abc" := 1%N ]};
|}.

(** The view class [v] with another [get_queryset]. *)
Definition with_get_queryset {R C}
    (qs : HttpRequest → State → Exception + gmap pk R) (v : View R C)
  : View R C := {|
  login_required_mixin := login_required_mixin v;
  form_class := form_class v;
  template_name := template_name v;
  success_url := success_url v;
  form_valid := form_valid v;
  get_context_data := get_context_data v;
  get_queryset := qs;
|}.

(** ** Further properties of outcomes *)

Section Effects.
Context {R C : Type} `{!Model R} `{!ModelForm R C}.
Implicit Types (v : View R C) (request : HttpRequest) (st : State).

(** A view class that keeps [ContextMixin.get_context_data]. *)
Definition plain_context v : Prop :=
  ∀ request st context, get_context_data v request st context = context.

(** [st'] differs from [st] at most in the table of [R], which still holds
    every row it held, unchanged, and at most one row more. *)
Definition only_adds (st st' : State) : Prop :=
  ∃ t' : gmap pk R,
    st' = set_objects t' st
    ∧ objects st ⊆ t'
    ∧ size t' ≤ S (size (objects st)).

(** [st'] differs from [st] at most in the row [k] of the table of [R]: the
    table has the same keys, and every other row is unchanged. *)
Definition only_rewrites (k : pk) (st st' : State) : Prop :=
  ∃ t' : gmap pk R,
    st' = set_objects t' st
    ∧ dom t' = dom (objects st)
    ∧ ∀ k', k' ≠ k → t' !! k' = objects st !! k'.

(** The requester is logged in and is the author [a] names. *)
Definition owned_by (requester a : option user_id) : Prop :=
  ∃ U : user_id, requester = Some U ∧ a = Some U.

(** [st'] differs from [st] at most in the table of [R], and there only in
    rows the requester authored and in rows that are new. *)
Definition spares_foreign_rows (requester : option user_id)
    (st st' : State) : Prop :=
  ∃ t' : gmap pk R,
    st' = set_objects t' st
    ∧ ∀ k r, objects st !! k = Some r → ¬ owned_by requester (author r) →
             t' !! k = Some r.
End Effects.

(** The same request sent with another method. *)
Definition with_method (m : Method.t) (request : HttpRequest) : HttpRequest :=
  mkRequest m (path request) (body request) (session request) (user request).

(** The methods that reach the [post] handler of a generic editing view. *)
Definition posts (m : Method.t) : Prop := m = Method.POST ∨ m = Method.PUT.

(** A visitor who is not logged in renames the client of user 2. *)
Definition anonymous_rename_request : HttpRequest :=
  request_of None Method.POST "/clients/1/" [("name", "Mine")].

(** User 1 asks for the page of the client or project with key 1. *)
Definition detail_request : HttpRequest :=
  request_of (Some 1%N) Method.GET "/clients/1/" [].

(** User 1 sends a PUT with the data of a client. *)
Definition put_request : HttpRequest :=
  request_of (Some 1%N) Method.PUT "/clients/" [("name", "Acme")].

(** User 2 asks for a page. *)
Definition other_user_request : HttpRequest :=
  request_of (Some 2%N) Method.GET "/clients/2/" [].

(** A store with two sessions. *)
Definition two_sessions : State := {|
  Client_objects := ∅;
  Project_objects := ∅;
  Entry_objects := ∅;
  sessions := <["abc" := 1%N]> {[ "xyz" := 2%N ]};
|}.

(** ** Tactics *)


(** ** Laws of the model and form layers *)

Class ModelLaws (R : Type) `{!Model R} := {
  objects_set_objects (t : gmap pk R) st : objects (set_objects t st) = t;
  set_objects_objects st : set_objects (objects (R:=R) st) st = st;
  author_set_author u (r : R) : author (set_author u r) = u;
  author_new : author (new : R) = None;
}.

Class ModelFormLaws (R C : Type) `{!Model R} `{!ModelForm R C} := {
  author_construct_instance (c : C) (r : R) :
    author (construct_instance c r) = author r;
}.

#[export] Instance Client_ModelLaws : ModelLaws Client.
Proof. split; try done. by intros []. Qed.
#[export] Instance Project_ModelLaws : ModelLaws Project.
Proof. split; try done. by intros []. Qed.
#[export] Instance Entry_ModelLaws : ModelLaws Entry.
Proof. split; try done. by intros []. Qed.

#[export] Instance ClientForm_Laws : ModelFormLaws Client ClientData.
Proof. by split. Qed.
#[export] Instance ProjectForm_Laws : ModelFormLaws Project ProjectData.
Proof. by split. Qed.
#[export] Instance EntryForm_Laws : ModelFormLaws Entry EntryData.
Proof. by split. Qed.

(** ** Primary keys and saving *)

Lemma max_pk_bound {R} (t : gmap pk R) (k : pk) :
  is_Some (t !! k) → (k ≤ map_fold (λ k _ acc, N.max k acc) 0 t)%N.
Proof.
  revert k. apply (map_fold_weak_ind (λ b m, ∀ k, is_Some (m !! k) → (k ≤ b)%N)).
  - intros k [x Hx]. by rewrite lookup_empty in Hx.
  - intros i x m r Hi IH k Hk.
    destruct (decide (i = k)) as [->|Hne]; [lia|].
    rewrite lookup_insert_ne in Hk by done. specialize (IH k Hk). lia.
Qed.

Lemma next_pk_fresh {R} (t : gmap pk R) : t !! next_pk t = None.
Proof.
  destruct (t !! next_pk t) as [x|] eqn:Hx; [|done].
  assert (is_Some (t !! next_pk t)) as Hs by eauto.
  apply max_pk_bound in Hs. unfold next_pk in Hs. lia.
Qed.

Lemma save_insert_objects {R} `{!Model R} `{!ModelLaws R} (r : R) st :
  objects (save None r st).2 = <[next_pk (objects st) := r]> (objects st).
Proof. unfold save; simpl. by rewrite objects_set_objects. Qed.

Lemma save_update_objects {R} `{!Model R} `{!ModelLaws R} k (r : R) st :
  objects (save (Some k) r st).2 = <[k := r]> (objects st).
Proof. unfold save; simpl. by rewrite objects_set_objects. Qed.

(** ** Ownership filtering *)

Lemma filter_author_lookup {R} `{!Model R} (u : user_id) (qs : gmap pk R) k r :
  filter_author u qs !! k = Some r ↔ qs !! k = Some r ∧ author r = Some u.
Proof. unfold filter_author. by rewrite map_lookup_filter_Some. Qed.

Lemma filter_author_other {R} `{!Model R} (u : user_id) (qs : gmap pk R) k r :
  qs !! k = Some r → author r ≠ Some u → filter_author u qs !! k = None.
Proof.
  intros Hk Hne. apply eq_None_not_Some. intros [r' Hr'].
  apply filter_author_lookup in Hr' as [Hr' Ha]. congruence.
Qed.

(** ** Facts about the generic views *)

Section GenericFacts.
Context {R C : Type} `{!Model R} `{!ModelForm R C}.
Context `{!ModelLaws R} `{!ModelFormLaws R C}.
Implicit Types (v : View R C) (request : HttpRequest) (st : State).

Lemma dispatch_anonymous v (inner : HttpRequest → State → Response R C * State)
    request st :
  login_required_mixin v = true → user request = None →
  dispatch v inner request st
  = (HttpResponseRedirect (login_url (path request)), st).
Proof.
  intros Hl Hu. unfold dispatch, login_required. rewrite Hl. by rewrite Hu.
Qed.

Lemma dispatch_passes v (inner : HttpRequest → State → Response R C * State)
    request st :
  passes_login v request → dispatch v inner request st = inner request st.
Proof.
  unfold dispatch, login_required.
  intros [->|[u Hu]]; [done|].
  destruct (login_required_mixin v); [|done]. by rewrite Hu.
Qed.

Lemma CreateView_valid_post v request st (u : user_id) :
  stamps_author v →
  user request = Some u → method request = Method.POST →
  is_valid (form_class v) st None (POST request) = true →
  let row :=
    set_author (Some u)
      (construct_instance
         (cleaned_data (form_class v) st None (POST request)) new) in
  CreateView v request st
  = (HttpResponseRedirect (success_url v), (save None row st).2).
Proof.
  intros Hfv Hu Hm Hv row. unfold CreateView.
  rewrite dispatch_passes by (right; rewrite Hu; eauto).
  unfold View_dispatch, ProcessFormView_post. rewrite Hm. simpl.
  rewrite Hv, Hfv. unfold assign_author. rewrite Hu.
  reflexivity.
Qed.

Lemma CreateView_get v request st :
  passes_login v request → method request = Method.GET →
  CreateView v request st
  = (TemplateResponse (template_name v)
       (get_context_data v request st
          (<["form" := CtxForm (UnboundForm None)]>
             (<["view" := CtxView]> ∅))),
     st).
Proof.
  intros Hp Hm. unfold CreateView. rewrite dispatch_passes by done.
  unfold View_dispatch. by rewrite Hm.
Qed.


Lemma get_object_filtered v request st (u : user_id) k :
  filters_by_author v → user request = Some u →
  get_object v k request st
  = match objects st !! k with
    | Some r => if decide (author r = Some u) then inr r else inl Http404
    | None => inl Http404
    end.
Proof.
  intros Hq Hu. unfold get_object. rewrite Hq, Hu. simpl.
  destruct (objects st !! k) as [r|] eqn:Hk.
  - case_decide as Ha.
    + by rewrite (proj2 (filter_author_lookup u _ k r) (conj Hk Ha)).
    + by rewrite (filter_author_other u _ k r Hk Ha).
  - destruct (filter_author u (objects st) !! k) as [r|] eqn:Hf; [|done].
    apply filter_author_lookup in Hf as [Hf _]. congruence.
Qed.

Lemma UpdateView_foreign_row v request st (u : user_id) k r :
  filters_by_author v → user request = Some u →
  method request = Method.GET ∨ method request = Method.POST →
  objects st !! k = Some r → author r ≠ Some u →
  UpdateView v k request st = (HttpResponseNotFound, st).
Proof.
  intros Hq Hu Hm Hk Ha. unfold UpdateView.
  rewrite dispatch_passes by (right; rewrite Hu; eauto).
  unfold View_dispatch, BaseUpdateView_get, BaseUpdateView_post.
  rewrite (get_object_filtered v request st u k Hq Hu), Hk.
  rewrite decide_False by done. by destruct Hm as [-> | ->].
Qed.

Lemma UpdateView_own_row v request st (u : user_id) k r :
  filters_by_author v → user request = Some u →
  objects st !! k = Some r → author r = Some u →
  UpdateView v k request st
  = View_dispatch (ProcessFormView_get v (Some (k, r)))
                  (ProcessFormView_post v (Some (k, r))) request st.
Proof.
  intros Hq Hu Hk Ha. unfold UpdateView.
  rewrite dispatch_passes by (right; rewrite Hu; eauto).
  unfold View_dispatch, BaseUpdateView_get, BaseUpdateView_post.
  rewrite (get_object_filtered v request st u k Hq Hu), Hk.
  rewrite decide_True by done. by destruct (method request).
Qed.
End GenericFacts.

Section ViewFacts.
Variable ClientForm : FormClass Client ClientData.
Variable ProjectForm : FormClass Project ProjectData.
Variable EntryForm : FormClass Entry EntryData.

Lemma ClientCreateView_stamps : stamps_author (ClientCreateView ClientForm).
Proof. done. Qed.
Lemma EntryCreateView_stamps : stamps_author (EntryCreateView EntryForm).
Proof. done. Qed.
Lemma ProjectCreateView_stamps :
  stamps_author (ProjectCreateView ProjectForm).
Proof. done. Qed.

Lemma ClientUpdateView_filters :
  filters_by_author (ClientUpdateView ClientForm).
Proof. done. Qed.
Lemma ProjectUpdateView_filters :
  filters_by_author (ProjectUpdateView ProjectForm).
Proof. done. Qed.
Lemma EntryCreateView_filters :
  filters_by_author (EntryCreateView EntryForm).
Proof. done. Qed.
Lemma ProjectCreateView_filters :
  filters_by_author (ProjectCreateView ProjectForm).
Proof. done. Qed.
End ViewFacts.

(** ** Authentication of the class-based views *)

(** The four view classes that list [LoginRequiredMixin] send a visitor
    who is not logged in to the login page and leave the store alone. *)
Lemma guarded_views_redirect_anonymous
    (ClientForm : FormClass Client ClientData)
    (ProjectForm : FormClass Project ProjectData)
    (EntryForm : FormClass Entry EntryData) request st k :
  user request = None →
  let to_login {R C} : Response R C * State :=
    (HttpResponseRedirect (login_url (path request)), st) in
  CreateView (EntryCreateView EntryForm) request st = to_login
  ∧ CreateView (ProjectCreateView ProjectForm) request st = to_login
  ∧ UpdateView (ClientUpdateView ClientForm) k request st = to_login
  ∧ UpdateView (ProjectUpdateView ProjectForm) k request st = to_login.
Proof.
  intros Hu. repeat split;
    unfold CreateView, UpdateView; by rewrite dispatch_anonymous.
Qed.

(** C1, the code at a failing input: [ClientCreateView] does not list
    [LoginRequiredMixin], so a GET from a visitor who is not logged in is
    answered with the rendered client page (every stored client in its
    context) instead of a redirect to the login flow; a valid POST from
    such a visitor gets as far as [form_valid], where assigning the
    anonymous user as author raises [ValueError].  No row is written in
    either case. *)
Theorem ClientCreateView_serves_anonymous :
  CreateView (ClientCreateView SpecForms.ClientForm)
    anonymous_get_request sample_state
  = (TemplateResponse "clients.html"
       (<["client_list" := CtxQuerySet (Client_objects sample_state)]>
          (<["form" := CtxForm (UnboundForm None)]>
             (<["view" := CtxView]> ∅))),
     sample_state)
  ∧ CreateView (ClientCreateView SpecForms.ClientForm)
      anonymous_acme_request sample_state
    = (HttpResponseServerError ValueError, sample_state).
Proof. split; reflexivity. Qed.

(** ** Ownership of querysets *)

(** The querysets that the update views, [EntryCreateView] and
    [ProjectCreateView] build for a logged-in user hold exactly the rows
    that user authored. *)
Lemma get_queryset_owned {R C} `{!Model R} (v : View R C)
    request st (u : user_id) :
  filters_by_author v → user request = Some u →
  ∃ qs, get_queryset v request st = inr qs
    ∧ ∀ k r, qs !! k = Some r ↔ objects st !! k = Some r ∧ author r = Some u.
Proof.
  intros Hq Hu. rewrite Hq, Hu. eexists; split; [done|].
  intros k r. apply filter_author_lookup.
Qed.

(** A create view never consults [get_queryset]: whatever queryset the
    class defines, every request has the same outcome.  The author filter
    that [EntryCreateView] and [ProjectCreateView] put there scopes
    nothing. *)
Lemma CreateView_ignores_get_queryset {R C} `{!Model R} `{!ModelForm R C}
    (v : View R C) (qs : HttpRequest → State → Exception + gmap pk R)
    request st :
  CreateView (with_get_queryset qs v) request st = CreateView v request st.
Proof. reflexivity. Qed.

(** C2, the code at a failing input: user 1 is logged in and every stored
    row belongs to user 2, yet the entity list that each create view puts
    in its template context is the whole table ([objects.all()], not the
    view's filtered queryset), so it holds user 2's row. *)
Theorem create_views_list_foreign_rows :
  (∃ context qs,
     CreateView (ClientCreateView SpecForms.ClientForm)
       (list_request "/clients/") sample_state
     = (TemplateResponse "clients.html" context, sample_state)
     ∧ context !! "client_list" = Some (CtxQuerySet qs)
     ∧ qs !! 1%N = Some (mkClient "Initech" (Some 2%N)))
  ∧ (∃ context qs,
       CreateView (EntryCreateView SpecForms.EntryForm)
         (list_request "/entries/") sample_state
       = (TemplateResponse "entries.html" context, sample_state)
       ∧ context !! "entry_list" = Some (CtxQuerySet qs)
       ∧ qs !! 1%N
         = Some (mkEntry (Some 100%Z) (Some 200%Z) (Some 1%N) "survey"
                         (Some 2%N)))
  ∧ (∃ context qs,
       CreateView (ProjectCreateView SpecForms.ProjectForm)
         (list_request "/projects/") sample_state
       = (TemplateResponse "projects.html" context, sample_state)
       ∧ context !! "project_list" = Some (CtxQuerySet qs)
       ∧ qs !! 1%N = Some (mkProject "Site" (Some 1%N) (Some 2%N))).
Proof.
  repeat split; eexists _, _; repeat split; reflexivity.
Qed.

(** ** Creating rows through the class-based views *)

Lemma CreateView_valid_post_inserted {R C} `{!Model R} `{!ModelForm R C}
    `{!ModelLaws R} `{!ModelFormLaws R C}
    (v : View R C) request st (u : user_id) :
  stamps_author v →
  user request = Some u → method request = Method.POST →
  is_valid (form_class v) st None (POST request) = true →
  ∃ row st',
    CreateView v request st = (HttpResponseRedirect (success_url v), st')
    ∧ inserted st st' row
    ∧ objects st' !! next_pk (objects st) = Some row
    ∧ author row = Some u
    ∧ row = set_author (Some u)
              (construct_instance
                 (cleaned_data (form_class v) st None (POST request)) new).
Proof.
  intros Hfv Hu Hm Hv. eexists _, _. split; [by apply CreateView_valid_post|].
  split; [split; [apply next_pk_fresh|done]|].
  split; [by rewrite save_insert_objects, lookup_insert_eq|].
  split; [by rewrite author_set_author|].
  reflexivity.
Qed.

(** C3: a valid create-form submission (a POST) that a logged-in user U
    makes through [ClientCreateView], [ProjectCreateView] or
    [EntryCreateView] is answered with the redirect to the list page and
    stores exactly one new row, whose fields are the cleaned form data and
    whose author is U. *)
Theorem create_views_store_requesting_user
    (ClientForm : FormClass Client ClientData)
    (ProjectForm : FormClass Project ProjectData)
    (EntryForm : FormClass Entry EntryData)
    (U : user_id) request st :
  user request = Some U → method request = Method.POST →
  (is_valid ClientForm st None (POST request) = true →
   ∃ row st',
     CreateView (ClientCreateView ClientForm) request st
     = (HttpResponseRedirect (reverse "client-list"), st')
     ∧ inserted st st' row
     ∧ Client_objects st' !! next_pk (Client_objects st) = Some row
     ∧ client_author row = Some U
     ∧ row = mkClient
               (cd_name (cleaned_data ClientForm st None (POST request)))
               (Some U))
  ∧ (is_valid ProjectForm st None (POST request) = true →
     ∃ row st',
       CreateView (ProjectCreateView ProjectForm) request st
       = (HttpResponseRedirect (reverse "project-list"), st')
       ∧ inserted st st' row
       ∧ Project_objects st' !! next_pk (Project_objects st) = Some row
       ∧ project_author row = Some U
       ∧ row = let cleaned :=
                 cleaned_data ProjectForm st None (POST request) in
               mkProject (pd_name cleaned) (pd_client cleaned) (Some U))
  ∧ (is_valid EntryForm st None (POST request) = true →
     ∃ row st',
       CreateView (EntryCreateView EntryForm) request st
       = (HttpResponseRedirect (reverse "entry-list"), st')
       ∧ inserted st st' row
       ∧ Entry_objects st' !! next_pk (Entry_objects st) = Some row
       ∧ entry_author row = Some U
       ∧ row = let cleaned :=
                 cleaned_data EntryForm st None (POST request) in
               mkEntry (ed_start cleaned) (ed_stop cleaned)
                       (ed_project cleaned) (ed_description cleaned)
                       (Some U)).
Proof.
  intros Hu Hm. repeat split; intros Hv.
  - exact (CreateView_valid_post_inserted (ClientCreateView ClientForm)
             request st U (ClientCreateView_stamps _) Hu Hm Hv).
  - exact (CreateView_valid_post_inserted (ProjectCreateView ProjectForm)
             request st U (ProjectCreateView_stamps _) Hu Hm Hv).
  - exact (CreateView_valid_post_inserted (EntryCreateView EntryForm)
             request st U (EntryCreateView_stamps _) Hu Hm Hv).
Qed.

Lemma create_views_store_requesting_user_witness :
  (user full_request = Some 1%N ∧ method full_request = Method.POST
   ∧ is_valid SpecForms.ClientForm sample_state None (POST full_request) = true
   ∧ is_valid SpecForms.ProjectForm sample_state None (POST full_request) = true
   ∧ is_valid SpecForms.EntryForm sample_state None (POST full_request) = true)
  ∧ (∃ st',
       CreateView (ClientCreateView SpecForms.ClientForm) full_request sample_state
       = (HttpResponseRedirect (reverse "client-list"), st')
       ∧ Client_objects st' !! 2%N = Some (mkClient "Acme" (Some 1%N)))
  ∧ (∃ st',
       CreateView (ProjectCreateView SpecForms.ProjectForm) full_request sample_state
       = (HttpResponseRedirect (reverse "project-list"), st')
       ∧ Project_objects st' !! 2%N
         = Some (mkProject "Acme" (Some 1%N) (Some 1%N)))
  ∧ (∃ st',
       CreateView (EntryCreateView SpecForms.EntryForm) full_request sample_state
       = (HttpResponseRedirect (reverse "entry-list"), st')
       ∧ Entry_objects st' !! 2%N
         = Some (mkEntry (Some 300%Z) (Some 400%Z) (Some 1%N) "drawing"
                         (Some 1%N))).
Proof.
  destruct (create_views_store_requesting_user
              SpecForms.ClientForm SpecForms.ProjectForm SpecForms.EntryForm
              1%N full_request sample_state eq_refl eq_refl) as (Hc & Hp & He).
  split; [repeat split|].
  destruct (Hc eq_refl) as (rc & stc & Hrc & _ & Hkc & _ & ->).
  destruct (Hp eq_refl) as (rp & stp & Hrp & _ & Hkp & _ & ->).
  destruct (He eq_refl) as (re & ste & Hre & _ & Hke & _ & ->).
  split; [|split]; eexists; (split; [eassumption|assumption]).
Defined.

(** ** Updating rows of another user *)

(** C4: when a logged-in user U sends a GET or a POST to
    [ClientUpdateView] or [ProjectUpdateView] with the primary key of a row
    whose author is another user V, the answer is not-found and the store
    is left as it was. *)
Theorem update_views_hide_foreign_rows
    (ClientForm : FormClass Client ClientData)
    (ProjectForm : FormClass Project ProjectData)
    (U V : user_id) request st k :
  user request = Some U → V ≠ U →
  method request = Method.GET ∨ method request = Method.POST →
  (∀ row, Client_objects st !! k = Some row → client_author row = Some V →
     UpdateView (ClientUpdateView ClientForm) k request st
     = (HttpResponseNotFound, st))
  ∧ (∀ row, Project_objects st !! k = Some row →
       project_author row = Some V →
       UpdateView (ProjectUpdateView ProjectForm) k request st
       = (HttpResponseNotFound, st)).
Proof.
  intros Hu Hne Hm. split; intros row Hk Ha.
  - apply (UpdateView_foreign_row (ClientUpdateView ClientForm)
             request st U k row); try done.
    simpl. rewrite Ha. congruence.
  - apply (UpdateView_foreign_row (ProjectUpdateView ProjectForm)
             request st U k row); try done.
    simpl. rewrite Ha. congruence.
Qed.

Lemma update_views_hide_foreign_rows_witness :
  (user rename_request = Some 1%N ∧ 2%N ≠ 1%N
   ∧ (method rename_request = Method.GET ∨ method rename_request = Method.POST)
   ∧ Client_objects sample_state !! 1%N
     = Some (mkClient "Initech" (Some 2%N))
   ∧ Project_objects sample_state !! 1%N
     = Some (mkProject "Site" (Some 1%N) (Some 2%N)))
  ∧ UpdateView (ClientUpdateView SpecForms.ClientForm) 1%N rename_request
      sample_state
    = (HttpResponseNotFound, sample_state)
  ∧ UpdateView (ProjectUpdateView SpecForms.ProjectForm) 1%N rename_request
      sample_state
    = (HttpResponseNotFound, sample_state).
Proof.
  assert (2%N ≠ 1%N) as Hne by discriminate.
  destruct (update_views_hide_foreign_rows
              SpecForms.ClientForm SpecForms.ProjectForm 1%N 2%N rename_request
              sample_state 1%N eq_refl Hne (or_intror eq_refl))
    as (Hc & Hp).
  split; [repeat split; first [done | by right]|].
  split; [exact (Hc _ eq_refl eq_refl)|exact (Hp _ eq_refl eq_refl)].
Defined.

(** ** The client-create scenario *)

(** C5: when a logged-in user U POSTs a valid form with name "Acme" to
    [ClientCreateView], the answer is the redirect to the client-list
    route, exactly one row is added to the client table (nothing else in
    the store changes), that row is named "Acme" and authored by U, and the
    client list the page shows afterwards contains it. *)
Theorem client_create_acme
    (ClientForm : FormClass Client ClientData)
    (U : user_id) request st :
  user request = Some U → method request = Method.POST →
  is_valid ClientForm st None (POST request) = true →
  cd_name (cleaned_data ClientForm st None (POST request)) = "Acme" →
  ∃ st',
    CreateView (ClientCreateView ClientForm) request st
    = (HttpResponseRedirect (reverse "client-list"), st')
    ∧ inserted st st' (mkClient "Acme" (Some U))
    ∧ size (Client_objects st') = S (size (Client_objects st))
    ∧ (∀ k row, Client_objects st !! k = Some row →
         Client_objects st' !! k = Some row)
    ∧ ∀ request', method request' = Method.GET →
        ∃ context qs,
          CreateView (ClientCreateView ClientForm) request' st'
          = (TemplateResponse "clients.html" context, st')
          ∧ context !! "client_list" = Some (CtxQuerySet qs)
          ∧ qs !! next_pk (Client_objects st)
            = Some (mkClient "Acme" (Some U)).
Proof.
  intros Hu Hm Hv Hname.
  destruct (CreateView_valid_post_inserted (ClientCreateView ClientForm)
              request st U (ClientCreateView_stamps _) Hu Hm Hv)
    as (row & st' & Hr & Hins & Hk & _ & Hrow).
  simpl in Hrow. rewrite Hname in Hrow. subst row.
  exists st'. split; [exact Hr|]. split; [exact Hins|].
  destruct Hins as [Hfresh Hst'].
  assert (Client_objects st'
          = <[next_pk (Client_objects st) := mkClient "Acme" (Some U)]>
              (Client_objects st)) as Htbl by (by rewrite Hst').
  split; [rewrite Htbl; by apply map_size_insert_None|].
  split.
  - intros k row Hrow. rewrite Htbl, lookup_insert_ne; [done|].
    intros <-. simpl in Hfresh. congruence.
  - intros request' Hget. eexists _, _. split.
    + apply CreateView_get; [by left|done].
    + split; [apply lookup_insert_eq|exact Hk].
Qed.

Lemma client_create_acme_witness :
  (user acme_request = Some 1%N ∧ method acme_request = Method.POST
   ∧ is_valid SpecForms.ClientForm sample_state None (POST acme_request) = true
   ∧ cd_name (cleaned_data SpecForms.ClientForm sample_state None
                (POST acme_request)) = "Acme")
  ∧ ∃ st',
      CreateView (ClientCreateView SpecForms.ClientForm) acme_request sample_state
      = (HttpResponseRedirect (reverse "client-list"), st')
      ∧ Client_objects st' !! 2%N = Some (mkClient "Acme" (Some 1%N))
      ∧ size (Client_objects st') = 2.
Proof.
  destruct (client_create_acme SpecForms.ClientForm 1%N acme_request sample_state
              eq_refl eq_refl eq_refl eq_refl)
    as (st' & Hr & [_ Hst'] & Hsize & _).
  split; [repeat split|].
  exists st'. split; [exact Hr|]. split; [by rewrite Hst'|exact Hsize].
Defined.

(** ** Logout *)

(** C8: whatever the request, the logout view answers with a redirect to
    the root path "/" and leaves the session of the request's cookie
    invalid: its record is gone from the session store, so a later request
    with that cookie is anonymous.  The tables are not touched. *)
Theorem logout_invalidates_session (R C : Type) request st :
  ∃ st',
    @logout R C request st = (HttpResponseRedirect (url_path "/"), st')
    ∧ get_user st' (session request) = None
    ∧ sessions st'
      = match session request with
        | Some key => delete key (sessions st)
        | None => sessions st
        end
    ∧ Client_objects st' = Client_objects st
    ∧ Project_objects st' = Project_objects st
    ∧ Entry_objects st' = Entry_objects st.
Proof.
  eexists. split; [reflexivity|]. simpl. repeat split.
  destruct (session request) as [key|]; simpl; [|done].
  apply lookup_delete_eq.
Qed.

(** ** Migrations *)

Module MigrationFacts.
Import Migrations.

Lemma additive_extension_refl db : additive_extension db db.
Proof.
  intros m t Hm. exists t. repeat split; [done..|].
  intros k r Hk. exists r. split; [done|]. split; [done|].
  intros c Hc [f Hf]. congruence.
Qed.

Lemma additive_extension_trans db1 db2 db3 :
  additive_extension db1 db2 → additive_extension db2 db3 →
  additive_extension db1 db3.
Proof.
  intros H12 H23 m t1 Hm1.
  destruct (H12 m t1 Hm1) as (t2 & Hm2 & Hf12 & Hd12 & Hr12).
  destruct (H23 m t2 Hm2) as (t3 & Hm3 & Hf23 & Hd23 & Hr23).
  exists t3. split; [done|]. split; [by etrans|].
  split; [congruence|].
  intros k r1 Hk1.
  destruct (Hr12 k r1 Hk1) as (r2 & Hk2 & Hold12 & Hnew12).
  destruct (Hr23 k r2 Hk2) as (r3 & Hk3 & Hold23 & Hnew23).
  exists r3. split; [done|]. split.
  - intros c [f Hc]. rewrite Hold23, Hold12; [done|eauto|].
    exists f. by eapply lookup_weaken.
  - intros c Hc1 Hc3. destruct (fields t2 !! c) as [f|] eqn:Hc2.
    + rewrite Hold23 by eauto. apply Hnew12; eauto.
    + by apply Hnew23.
Qed.

(** Adding a column is an additive extension, and says exactly what the
    table looks like afterwards. *)
Lemma AddField_additive m name field db db' :
  database_forwards (AddField m name field) db = Some db' →
  additive_extension db db'
  ∧ ∃ t, db !! m = Some t ∧ fields t !! name = None
      ∧ db' = <[m := mkTable (<[name := field]> (fields t))
                             (insert name None <$> rows t)]> db.
Proof.
  simpl. destruct (db !! m) as [t|] eqn:Hm; simpl; [|done].
  destruct (fields t !! name) as [f|] eqn:Hn; [done|].
  destruct (field_null field || bool_decide (rows t = ∅)); [|done].
  intros [= <-]. split; [|by exists t].
  intros m' t0 Hm'. destruct (decide (m = m')) as [<-|Hne].
  - rewrite lookup_insert_eq. eexists. split; [done|]. simpl.
    assert (t0 = t) as -> by congruence.
    split; [by apply insert_subseteq|]. split; [by rewrite dom_fmap_L|].
    intros k r Hk. exists (<[name := None]> r).
    rewrite lookup_fmap, Hk. split; [done|]. split.
    + intros c [f Hc]. apply lookup_insert_ne. congruence.
    + intros c Hc [f Hf]. destruct (decide (name = c)) as [<-|Hnc].
      * apply lookup_insert_eq.
      * rewrite lookup_insert_ne in Hf by done. congruence.
  - rewrite lookup_insert_ne by done.
    by apply (additive_extension_refl db m' t0).
Qed.
End MigrationFacts.

(** C9: migration 0004 depends on the user model and on migration 0003 and
    adds a nullable author foreign key (to the user model) to Entry;
    migration 0005 depends on the user model and on migration 0004 and adds
    the same column to Client and to Project.  Whenever either applies, the
    resulting database extends the old one additively: no table, column or
    row goes away, every existing column keeps its definition and its
    value in every row, and the new column is NULL in every existing row
    (nothing is backfilled). *)
Theorem migrations_only_add_nullable_author :
  (Migrations.dependencies Migrations.Migration_0004_entry_author
   = [ Migrations.swappable_dependency Migrations.AUTH_USER_MODEL;
       Migrations.migration "entries" "0003_create_fk_to_client" ]
   ∧ ∀ db db',
       Migrations.apply Migrations.Migration_0004_entry_author db = Some db' →
       Migrations.additive_extension db db'
       ∧ ∃ t, db !! "entry" = Some t
           ∧ Migrations.fields t !! "author" = None
           ∧ db' = <["entry" := Migrations.with_author_column t]> db)
  ∧ (Migrations.dependencies Migrations.Migration_0005_auto_20150909_0538
     = [ Migrations.swappable_dependency Migrations.AUTH_USER_MODEL;
         Migrations.migration "entries" "0004_entry_author" ]
     ∧ ∀ db db',
         Migrations.apply Migrations.Migration_0005_auto_20150909_0538 db
         = Some db' →
         Migrations.additive_extension db db'
         ∧ ∃ tc tp, db !! "client" = Some tc ∧ db !! "project" = Some tp
             ∧ Migrations.fields tc !! "author" = None
             ∧ Migrations.fields tp !! "author" = None
             ∧ db' = <["project" := Migrations.with_author_column tp]>
                       (<["client" := Migrations.with_author_column tc]> db)).
Proof.
  split; (split; [reflexivity|]); intros db db'; unfold Migrations.apply;
    cbn [Migrations.apply_operations Migrations.operations
         Migrations.Migration_0004_entry_author
         Migrations.Migration_0005_auto_20150909_0538].
  - intros H.
    destruct (Migrations.database_forwards _ db) as [db1|] eqn:H1; [|done].
    cbn [mbind option_bind] in H. injection H as <-.
    by apply MigrationFacts.AddField_additive in H1.
  - intros H.
    destruct (Migrations.database_forwards _ db) as [db1|] eqn:H1; [|done].
    cbn [mbind option_bind] in H.
    destruct (Migrations.database_forwards _ db1) as [db2|] eqn:H2; [|done].
    cbn [mbind option_bind] in H. injection H as <-.
    apply MigrationFacts.AddField_additive in H1 as (Ha1 & tc & Hc & Hfc & ->).
    apply MigrationFacts.AddField_additive in H2 as (Ha2 & tp & Hp & Hfp & ->).
    split; [by eapply MigrationFacts.additive_extension_trans|].
    rewrite lookup_insert_ne in Hp by done. by exists tc, tp.
Qed.

Lemma migrations_only_add_nullable_author_witness :
  (Migrations.apply Migrations.Migration_0004_entry_author
     Migrations.sample_db = Some Migrations.sample_db_0004
   ∧ Migrations.apply Migrations.Migration_0005_auto_20150909_0538
       Migrations.sample_db_0004 = Some Migrations.sample_db_0005)
  ∧ Migrations.additive_extension Migrations.sample_db
      Migrations.sample_db_0004
  ∧ Migrations.additive_extension Migrations.sample_db_0004
      Migrations.sample_db_0005.
Proof.
  destruct migrations_only_add_nullable_author as [[_ H4] [_ H5]].
  assert (Migrations.apply Migrations.Migration_0004_entry_author
            Migrations.sample_db = Some Migrations.sample_db_0004) as E4
    by (vm_compute; reflexivity).
  assert (Migrations.apply Migrations.Migration_0005_auto_20150909_0538
            Migrations.sample_db_0004 = Some Migrations.sample_db_0005) as E5
    by (vm_compute; reflexivity).
  split; [by split|].
  split; [exact (proj1 (H4 _ _ E4))|exact (proj1 (H5 _ _ E5))].
Defined.

(** ** Invalid form input *)

Section InvalidInput.
Context {R C : Type} `{!Model R} `{!ModelForm R C}.
Context `{!ModelLaws R} `{!ModelFormLaws R C}.
Implicit Types (v : View R C) (request : HttpRequest) (st : State).








End InvalidInput.

Section InvalidInputOfViews.
Variable ClientForm : FormClass Client ClientData.
Variable ProjectForm : FormClass Project ProjectData.
Variable EntryForm : FormClass Entry EntryData.

Lemma ClientUpdateView_keeps_form : keeps_form (ClientUpdateView ClientForm).
Proof. done. Qed.
Lemma ProjectUpdateView_keeps_form :
  keeps_form (ProjectUpdateView ProjectForm).
Proof. done. Qed.





End InvalidInputOfViews.




(** ** Authors are never rewritten *)

Section KeepsAuthors.
Context {R C : Type} `{!Model R} `{!ModelForm R C}.
Context `{!ModelLaws R} `{!ModelFormLaws R C}.
Implicit Types (v : View R C) (request : HttpRequest) (st : State).

Lemma table_keeps_authors_refl (t : gmap pk R) : table_keeps_authors t t.
Proof. intros k r Hk. by exists r. Qed.

Lemma table_keeps_authors_trans (t1 t2 t3 : gmap pk R) :
  table_keeps_authors t1 t2 → table_keeps_authors t2 t3 →
  table_keeps_authors t1 t3.
Proof.
  intros H12 H23 k r1 Hk1.
  destruct (H12 k r1 Hk1) as (r2 & Hk2 & Ha2).
  destruct (H23 k r2 Hk2) as (r3 & Hk3 & Ha3).
  exists r3. split; [done|congruence].
Qed.

Lemma writes_own_table_refl st : writes_own_table (R:=R) st st.
Proof.
  exists (objects st). split; [by rewrite set_objects_objects|].
  apply table_keeps_authors_refl.
Qed.

(** Inserting under a fresh key keeps every row. *)
Lemma save_insert_writes (r : R) st :
  writes_own_table st (save None r st).2.
Proof.
  eexists. split; [reflexivity|]. intros k r0 Hk. exists r0.
  split; [|done]. rewrite lookup_insert_ne; [done|].
  intros <-. by rewrite next_pk_fresh in Hk.
Qed.

(** Overwriting a row with one of the same author keeps every row. *)
Lemma save_update_writes k (old r : R) st :
  objects st !! k = Some old → author r = author old →
  writes_own_table st (save (Some k) r st).2.
Proof.
  intros Hold Ha. eexists. split; [reflexivity|]. intros k' r0 Hk'.
  destruct (decide (k = k')) as [<-|Hne].
  - exists r. rewrite lookup_insert_eq. split; [done|congruence].
  - exists r0. by rewrite lookup_insert_ne.
Qed.

Lemma CreateView_writes v request st :
  stamps_author v → writes_own_table st (CreateView v request st).2.
Proof.
  intros Hfv.
  unfold CreateView, dispatch, login_required, View_dispatch,
    ProcessFormView_get, ProcessFormView_post.
  destruct (login_required_mixin v), (is_authenticated (user request)),
    (method request); simpl; try apply writes_own_table_refl;
    (destruct (is_valid _ _ _ _); simpl; [|apply writes_own_table_refl]);
    rewrite Hfv; unfold assign_author;
    (destruct (user request); simpl; [|apply writes_own_table_refl]);
    apply save_insert_writes.
Qed.

Lemma UpdateView_writes v k request st :
  inherits_form_valid v → filters_by_author v →
  writes_own_table st (UpdateView v k request st).2.
Proof.
  intros Hfv Hq.
  assert (∀ obj, get_object v k request st = inr obj →
                 objects st !! k = Some obj) as Hobj.
  { intros obj. unfold get_object. rewrite Hq.
    unfold QuerySet_filter_author. destruct (user request) as [u|]; [|done].
    destruct (filter_author u (objects st) !! k) as [r|] eqn:Hr; [|done].
    intros [= <-]. by apply filter_author_lookup in Hr as [Hr _]. }
  unfold UpdateView, dispatch, login_required, View_dispatch,
    BaseUpdateView_get, BaseUpdateView_post,
    ProcessFormView_get, ProcessFormView_post.
  destruct (login_required_mixin v), (is_authenticated (user request)),
    (method request); simpl; try apply writes_own_table_refl;
    (destruct (get_object v k request st) as [e|obj] eqn:Hg; simpl;
     [apply writes_own_table_refl|]);
    try apply writes_own_table_refl;
    (destruct (is_valid _ _ _ _); simpl; [|apply writes_own_table_refl]);
    rewrite Hfv; apply (save_update_writes k obj); auto;
    apply author_construct_instance.
Qed.
End KeepsAuthors.

Lemma writes_Client_keeps st st' :
  writes_own_table (R:=Client) st st' → keeps_authors st st'.
Proof.
  intros (t' & -> & Ht). split; [exact Ht|].
  split; apply table_keeps_authors_refl.
Qed.

Lemma writes_Project_keeps st st' :
  writes_own_table (R:=Project) st st' → keeps_authors st st'.
Proof.
  intros (t' & -> & Ht). split; [apply table_keeps_authors_refl|].
  split; [exact Ht|apply table_keeps_authors_refl].
Qed.

Lemma writes_Entry_keeps st st' :
  writes_own_table (R:=Entry) st st' → keeps_authors st st'.
Proof.
  intros (t' & -> & Ht). split; [apply table_keeps_authors_refl|].
  split; [apply table_keeps_authors_refl|exact Ht].
Qed.

Lemma keeps_authors_refl st : keeps_authors st st.
Proof. repeat split; apply table_keeps_authors_refl. Qed.

Lemma keeps_authors_trans st1 st2 st3 :
  keeps_authors st1 st2 → keeps_authors st2 st3 → keeps_authors st1 st3.
Proof.
  intros (Hc & Hp & He) (Hc' & Hp' & He').
  repeat split; by eapply table_keeps_authors_trans.
Qed.

Section FunctionViewsKeepAuthors.
Variable ClientForm : FormClass Client ClientData.
Variable ProjectForm : FormClass Project ProjectData.
Variable EntryForm : FormClass Entry EntryData.

Lemma clients_writes request st :
  writes_own_table (R:=Client) st (clients ClientForm request st).2.
Proof.
  unfold clients. destruct (method request);
    try apply writes_own_table_refl.
  destruct (is_valid _ _ _ _); [|apply writes_own_table_refl].
  apply (save_insert_writes (R:=Client)).
Qed.

Lemma entries_writes request st :
  writes_own_table (R:=Entry) st (entries EntryForm request st).2.
Proof.
  unfold entries. destruct (method request);
    try apply writes_own_table_refl.
  destruct (is_valid _ _ _ _); [|apply writes_own_table_refl].
  apply (save_insert_writes (R:=Entry)).
Qed.

Lemma projects_writes request st :
  writes_own_table (R:=Project) st (projects ProjectForm request st).2.
Proof.
  unfold projects. destruct (method request);
    try apply writes_own_table_refl.
  destruct (is_valid _ _ _ _); [|apply writes_own_table_refl].
  apply (save_insert_writes (R:=Project)).
Qed.

Lemma client_detail_writes request k st :
  writes_own_table (R:=Client) st (client_detail ClientForm request k st).2.
Proof.
  unfold client_detail, get_object_or_404. simpl.
  destruct (Client_objects st !! k) as [client|] eqn:Hk;
    [|apply writes_own_table_refl].
  destruct (method request); try apply writes_own_table_refl.
  destruct (is_valid _ _ _ _); [|apply writes_own_table_refl].
  exact (save_update_writes (R:=Client) k client
           (mkClient (cd_name (cleaned_data ClientForm st None
                                 (POST request)))
                     (client_author client))
           st Hk eq_refl).
Qed.

Lemma project_detail_writes request k st :
  writes_own_table (R:=Project) st
    (project_detail ProjectForm request k st).2.
Proof.
  unfold project_detail, get_object_or_404. simpl.
  destruct (Project_objects st !! k) as [project|] eqn:Hk;
    [|apply writes_own_table_refl].
  destruct (method request); try apply writes_own_table_refl.
  destruct (is_valid _ _ _ _); [|apply writes_own_table_refl].
  exact (save_update_writes (R:=Project) k project
           (mkProject
              (pd_name (cleaned_data ProjectForm st None (POST request)))
              (pd_client (cleaned_data ProjectForm st None (POST request)))
              (project_author project))
           st Hk eq_refl).
Qed.

(** No request to any view changes the author of a stored row or removes
    a row. *)
Lemma step_keeps_authors st st' :
  step ClientForm ProjectForm EntryForm st st' → keeps_authors st st'.
Proof.
  destruct 1.
  - apply writes_Client_keeps, clients_writes.
  - by apply writes_Client_keeps, CreateView_writes.
  - apply writes_Client_keeps, client_detail_writes.
  - by apply writes_Client_keeps, UpdateView_writes.
  - apply writes_Entry_keeps, entries_writes.
  - by apply writes_Entry_keeps, CreateView_writes.
  - apply writes_Project_keeps, projects_writes.
  - by apply writes_Project_keeps, CreateView_writes.
  - apply writes_Project_keeps, project_detail_writes.
  - by apply writes_Project_keeps, UpdateView_writes.
  - unfold ClientRedirectView, login_required.
    destruct (is_authenticated (user request)), (method request);
      apply keeps_authors_refl.
  - unfold keeps_authors. simpl.
    repeat split; apply table_keeps_authors_refl.
Qed.

Lemma steps_keep_authors st st' :
  rtc (step ClientForm ProjectForm EntryForm) st st' →
  keeps_authors st st'.
Proof.
  induction 1 as [st|st1 st2 st3 Hstep _ IH].
  - apply keeps_authors_refl.
  - eapply keeps_authors_trans; [by apply step_keeps_authors|exact IH].
Qed.
End FunctionViewsKeepAuthors.

(** ** Rows created through the deprecated views *)

Lemma created_row {R} `{!Model R} `{!ModelLaws R} (r row : R) st st' k :
  st' = st ∨ st' = (save None r st).2 →
  objects st !! k = None → objects st' !! k = Some row → row = r.
Proof.
  intros [-> | ->] Hold Hnew; [congruence|].
  rewrite save_insert_objects in Hnew.
  destruct (decide (next_pk (objects st) = k)) as [<-|Hne].
  - rewrite lookup_insert_eq in Hnew. congruence.
  - rewrite lookup_insert_ne in Hnew by done. congruence.
Qed.

(** A row without author is in no user's filtered queryset. *)
Lemma unowned_row_filtered_out {R C} `{!Model R} (v : View R C)
    request st (u : user_id) k r :
  filters_by_author v → user request = Some u →
  objects st !! k = Some r → author r = None →
  ∃ qs, get_queryset v request st = inr qs ∧ qs !! k = None.
Proof.
  intros Hq Hu Hk Ha. rewrite Hq, Hu. eexists. split; [done|].
  apply (filter_author_other u _ k r Hk). congruence.
Qed.

(** C10: a row that [clients], [entries] or [projects] creates is stored
    with author NULL, and from then on, whatever requests the views serve
    afterwards, no logged-in user's ownership-filtered queryset (those of
    [ClientUpdateView], [EntryCreateView], [ProjectCreateView] and
    [ProjectUpdateView]) contains it. *)
Theorem deprecated_views_create_unowned_rows
    (ClientForm : FormClass Client ClientData)
    (ProjectForm : FormClass Project ProjectData)
    (EntryForm : FormClass Entry EntryData) request st k :
  (∀ row, Client_objects st !! k = None →
     Client_objects (clients ClientForm request st).2 !! k = Some row →
     client_author row = None
     ∧ ∀ st'' request' (U : user_id),
         rtc (step ClientForm ProjectForm EntryForm)
             (clients ClientForm request st).2 st'' →
         user request' = Some U →
         ∃ qs, get_queryset (ClientUpdateView ClientForm) request' st''
               = inr qs
           ∧ qs !! k = None)
  ∧ (∀ row, Entry_objects st !! k = None →
       Entry_objects (entries EntryForm request st).2 !! k = Some row →
       entry_author row = None
       ∧ ∀ st'' request' (U : user_id),
           rtc (step ClientForm ProjectForm EntryForm)
               (entries EntryForm request st).2 st'' →
           user request' = Some U →
           ∃ qs, get_queryset (EntryCreateView EntryForm) request' st''
                 = inr qs
             ∧ qs !! k = None)
  ∧ (∀ row, Project_objects st !! k = None →
       Project_objects (projects ProjectForm request st).2 !! k = Some row →
       project_author row = None
       ∧ ∀ st'' request' (U : user_id),
           rtc (step ClientForm ProjectForm EntryForm)
               (projects ProjectForm request st).2 st'' →
           user request' = Some U →
           (∃ qs, get_queryset (ProjectCreateView ProjectForm) request' st''
                  = inr qs
              ∧ qs !! k = None)
           ∧ (∃ qs, get_queryset (ProjectUpdateView ProjectForm) request' st''
                    = inr qs
                ∧ qs !! k = None)).
Proof.
  split; [|split]; intros row Hold Hnew.
  - assert (client_author row = None) as Ha.
    { assert (row = construct_instance
                      (cleaned_data ClientForm st None (POST request)) new)
        as -> ; [|done].
      eapply (created_row (R:=Client)); [|exact Hold|exact Hnew].
      unfold clients. destruct (method request); auto.
      destruct (is_valid _ _ _ _); auto. }
    split; [done|]. intros st'' request' U Hsteps Hu.
    apply steps_keep_authors in Hsteps as (Hc & _ & _).
    destruct (Hc k row Hnew) as (row' & Hk' & Ha').
    apply (unowned_row_filtered_out (ClientUpdateView ClientForm)
             request' st'' U k row'); try done. simpl in *. congruence.
  - assert (entry_author row = None) as Ha.
    { assert (row = construct_instance
                      (cleaned_data EntryForm st None (POST request)) new)
        as -> ; [|done].
      eapply (created_row (R:=Entry)); [|exact Hold|exact Hnew].
      unfold entries. destruct (method request); auto.
      destruct (is_valid _ _ _ _); auto. }
    split; [done|]. intros st'' request' U Hsteps Hu.
    apply steps_keep_authors in Hsteps as (_ & _ & He).
    destruct (He k row Hnew) as (row' & Hk' & Ha').
    apply (unowned_row_filtered_out (EntryCreateView EntryForm)
             request' st'' U k row'); try done. simpl in *. congruence.
  - assert (project_author row = None) as Ha.
    { assert (row = construct_instance
                      (cleaned_data ProjectForm st None (POST request)) new)
        as -> ; [|done].
      eapply (created_row (R:=Project)); [|exact Hold|exact Hnew].
      unfold projects. destruct (method request); auto.
      destruct (is_valid _ _ _ _); auto. }
    split; [done|]. intros st'' request' U Hsteps Hu.
    apply steps_keep_authors in Hsteps as (_ & Hp & _).
    destruct (Hp k row Hnew) as (row' & Hk' & Ha').
    split.
    + apply (unowned_row_filtered_out (ProjectCreateView ProjectForm)
               request' st'' U k row'); try done. simpl in *. congruence.
    + apply (unowned_row_filtered_out (ProjectUpdateView ProjectForm)
               request' st'' U k row'); try done. simpl in *. congruence.
Qed.

Lemma deprecated_views_create_unowned_rows_witness :
  (Client_objects sample_state !! 2%N = None
   ∧ Client_objects
       (clients SpecForms.ClientForm anonymous_acme_request sample_state).2
     !! 2%N = Some (mkClient "Acme" None)
   ∧ user rename_request = Some 1%N)
  ∧ ∃ qs,
      get_queryset (ClientUpdateView SpecForms.ClientForm) rename_request
        (UpdateView (ClientUpdateView SpecForms.ClientForm) 2%N
           rename_request
           (clients SpecForms.ClientForm anonymous_acme_request
              sample_state).2).2
      = inr qs
      ∧ qs !! 2%N = None.
Proof.
  split; [repeat split|].
  destruct (deprecated_views_create_unowned_rows
              SpecForms.ClientForm SpecForms.ProjectForm SpecForms.EntryForm
              anonymous_acme_request sample_state 2%N) as (Hc & _).
  destruct (Hc _ eq_refl eq_refl) as (_ & Hlater).
  apply (Hlater _ rename_request 1%N); [|reflexivity].
  apply rtc_once, step_ClientUpdateView.
Defined.

(** ** The deprecated views against the class-based ones *)


Section DeprecatedViews.
Variable ClientForm : FormClass Client ClientData.
Variable ProjectForm : FormClass Project ProjectData.
Variable EntryForm : FormClass Entry EntryData.




End DeprecatedViews.



(** ** What a request can change *)

Section EffectFacts.
Context {R C : Type} `{!Model R} `{!ModelForm R C}.
Context `{!ModelLaws R} `{!ModelFormLaws R C}.
Implicit Types (v : View R C) (request : HttpRequest) (st : State).

(** A generic create view leaves the store alone or inserts one row, the
    latter only for a POST or PUT of a logged-in user. *)
Lemma CreateView_effect v request st :
  stamps_author v →
  (CreateView v request st).2 = st
  ∨ ∃ r, posts (method request) ∧ is_Some (user request)
      ∧ (CreateView v request st).2 = (save None r st).2.
Proof.
  intros Hfv.
  unfold CreateView, dispatch, login_required, View_dispatch,
    ProcessFormView_get, ProcessFormView_post, posts.
  destruct (user request) as [u|] eqn:Hu;
    destruct (login_required_mixin v), (method request); simpl;
    rewrite ?Hu; simpl; auto;
    (destruct (is_valid _ _ _ _); simpl; [|by left]);
    first [ left; by rewrite Hfv, Hu
          | right; eexists; (split; [auto|]); (split; [eauto|]);
            by rewrite Hfv, Hu ].
Qed.

(** A generic update view whose queryset is filtered leaves the store
    alone or overwrites the row [k], the latter only for a POST or PUT of
    the logged-in author of that row, and keeping the author. *)
Lemma UpdateView_effect v k request st :
  inherits_form_valid v → filters_by_author v →
  (UpdateView v k request st).2 = st
  ∨ ∃ (u : user_id) old r,
      posts (method request) ∧ user request = Some u
      ∧ objects st !! k = Some old ∧ author old = Some u
      ∧ author r = Some u
      ∧ (UpdateView v k request st).2 = (save (Some k) r st).2.
Proof.
  intros Hfv Hq.
  assert (∀ obj, get_object v k request st = inr obj →
                 ∃ u : user_id, user request = Some u
                   ∧ objects st !! k = Some obj ∧ author obj = Some u)
    as Hobj.
  { intros obj. unfold get_object. rewrite Hq.
    unfold QuerySet_filter_author. destruct (user request) as [u|]; [|done].
    destruct (filter_author u (objects st) !! k) as [r|] eqn:Hr; [|done].
    intros [= <-]. apply filter_author_lookup in Hr as [Hr Ha]. eauto. }
  unfold UpdateView, dispatch, login_required, View_dispatch,
    BaseUpdateView_get, BaseUpdateView_post,
    ProcessFormView_get, ProcessFormView_post, posts.
  destruct (login_required_mixin v), (is_authenticated (user request)),
    (method request); simpl; auto;
    (destruct (get_object v k request st) as [e|obj] eqn:Hg; simpl;
     [by left|]); auto;
    (destruct (is_valid _ _ _ _); simpl; [|by left]);
    destruct (Hobj obj eq_refl) as (u & Hu & Hk & Ha);
    right; exists u, obj; eexists;
    (split; [auto|]); (split; [done|]); (split; [done|]);
    (split; [done|]); (split; [|by rewrite Hfv]);
    by rewrite author_construct_instance.
Qed.

Lemma only_adds_refl st : only_adds (R:=R) st st.
Proof.
  exists (objects st). split; [by rewrite set_objects_objects|].
  split; [done|lia].
Qed.

Lemma save_insert_only_adds (r : R) st : only_adds st (save None r st).2.
Proof.
  eexists. split; [reflexivity|]. split.
  - apply insert_subseteq, next_pk_fresh.
  - rewrite map_size_insert_None by apply next_pk_fresh. lia.
Qed.

Lemma only_rewrites_refl k st : only_rewrites (R:=R) k st st.
Proof.
  exists (objects st). split; [by rewrite set_objects_objects|]. by split.
Qed.

Lemma save_update_only_rewrites k (old r : R) st :
  objects st !! k = Some old → only_rewrites k st (save (Some k) r st).2.
Proof.
  intros Hold. eexists. split; [reflexivity|]. split.
  - apply dom_insert_lookup_L. eauto.
  - intros k' Hne. by rewrite lookup_insert_ne.
Qed.

Lemma spares_foreign_rows_refl u st : spares_foreign_rows (R:=R) u st st.
Proof.
  exists (objects st). split; [by rewrite set_objects_objects|]. done.
Qed.

Lemma save_insert_spares u (r : R) st :
  spares_foreign_rows u st (save None r st).2.
Proof.
  eexists. split; [reflexivity|]. intros k r0 Hk _.
  rewrite lookup_insert_ne; [done|]. intros <-.
  by rewrite next_pk_fresh in Hk.
Qed.

Lemma save_update_spares (u : user_id) k (old r : R) st :
  objects st !! k = Some old → author old = Some u →
  spares_foreign_rows (Some u) st (save (Some k) r st).2.
Proof.
  intros Hold Ha. eexists. split; [reflexivity|]. intros k' r0 Hk' Hforeign.
  rewrite lookup_insert_ne; [done|]. intros <-.
  apply Hforeign. exists u. split; [done|congruence].
Qed.
End EffectFacts.

Section EffectsOfViews.
Variable ClientForm : FormClass Client ClientData.
Variable ProjectForm : FormClass Project ProjectData.
Variable EntryForm : FormClass Entry EntryData.

Lemma clients_effect request st :
  (clients ClientForm request st).2 = st
  ∨ ∃ r, method request = Method.POST ∧ client_author r = None
      ∧ (clients ClientForm request st).2 = (save None r st).2.
Proof.
  unfold clients. destruct (method request); auto.
  destruct (is_valid _ _ _ _); auto.
  right. eexists. split; [done|]. split; [|reflexivity]. done.
Qed.

Lemma entries_effect request st :
  (entries EntryForm request st).2 = st
  ∨ ∃ r, method request = Method.POST ∧ entry_author r = None
      ∧ (entries EntryForm request st).2 = (save None r st).2.
Proof.
  unfold entries. destruct (method request); auto.
  destruct (is_valid _ _ _ _); auto.
  right. eexists. split; [done|]. split; [|reflexivity]. done.
Qed.

Lemma projects_effect request st :
  (projects ProjectForm request st).2 = st
  ∨ ∃ r, method request = Method.POST ∧ project_author r = None
      ∧ (projects ProjectForm request st).2 = (save None r st).2.
Proof.
  unfold projects. destruct (method request); auto.
  destruct (is_valid _ _ _ _); auto.
  right. eexists. split; [done|]. split; [|reflexivity]. done.
Qed.

Lemma client_detail_effect request k st :
  (client_detail ClientForm request k st).2 = st
  ∨ ∃ old r, method request = Method.POST
      ∧ Client_objects st !! k = Some old
      ∧ client_author r = client_author old
      ∧ (client_detail ClientForm request k st).2 = (save (Some k) r st).2.
Proof.
  unfold client_detail, get_object_or_404. simpl.
  destruct (Client_objects st !! k) as [client|] eqn:Hk; auto.
  destruct (method request); auto.
  destruct (is_valid _ _ _ _); auto.
  right. exists client. eexists (mkClient _ _).
  split; [done|]. split; [done|]. split; [|reflexivity]. done.
Qed.

Lemma project_detail_effect request k st :
  (project_detail ProjectForm request k st).2 = st
  ∨ ∃ old r, method request = Method.POST
      ∧ Project_objects st !! k = Some old
      ∧ project_author r = project_author old
      ∧ (project_detail ProjectForm request k st).2 = (save (Some k) r st).2.
Proof.
  unfold project_detail, get_object_or_404. simpl.
  destruct (Project_objects st !! k) as [project|] eqn:Hk; auto.
  destruct (method request); auto.
  destruct (is_valid _ _ _ _); auto.
  right. exists project. eexists (mkProject _ _ _).
  split; [done|]. split; [done|]. split; [|reflexivity]. done.
Qed.

Lemma ClientUpdateView_inherits :
  inherits_form_valid (ClientUpdateView ClientForm).
Proof. done. Qed.

Lemma ProjectUpdateView_inherits :
  inherits_form_valid (ProjectUpdateView ProjectForm).
Proof. done. Qed.

Lemma ClientUpdateView_plain : plain_context (ClientUpdateView ClientForm).
Proof. done. Qed.

Lemma ProjectUpdateView_plain : plain_context (ProjectUpdateView ProjectForm).
Proof. done. Qed.
End EffectsOfViews.

(** X1: a request to one of the ten create and update views changes the
    store only when it is a POST, for the function-based views, and only
    when it is a POST or a PUT, for the class-based ones; with every other
    method these views leave the store exactly as it was.
    [ClientRedirectView] never changes it.  (The [logout] view is not among
    them: it ends the session whatever the method.) *)
Theorem only_posts_write
    (ClientForm : FormClass Client ClientData)
    (ProjectForm : FormClass Project ProjectData)
    (EntryForm : FormClass Entry EntryData) request st k :
  (method request ≠ Method.POST →
   (clients ClientForm request st).2 = st
   ∧ (client_detail ClientForm request k st).2 = st
   ∧ (entries EntryForm request st).2 = st
   ∧ (projects ProjectForm request st).2 = st
   ∧ (project_detail ProjectForm request k st).2 = st)
  ∧ (¬ posts (method request) →
     (CreateView (ClientCreateView ClientForm) request st).2 = st
     ∧ (UpdateView (ClientUpdateView ClientForm) k request st).2 = st
     ∧ (CreateView (EntryCreateView EntryForm) request st).2 = st
     ∧ (CreateView (ProjectCreateView ProjectForm) request st).2 = st
     ∧ (UpdateView (ProjectUpdateView ProjectForm) k request st).2 = st)
  ∧ (@ClientRedirectView Client ClientData request st).2 = st.
Proof.
  split; [|split].
  3: { unfold ClientRedirectView, login_required.
       by destruct (is_authenticated (user request)), (method request). }
  - intros Hm. repeat split.
    + by destruct (clients_effect ClientForm request st) as [?|(? & ? & _)].
    + by destruct (client_detail_effect ClientForm request k st)
        as [?|(? & ? & ? & _)].
    + by destruct (entries_effect EntryForm request st) as [?|(? & ? & _)].
    + by destruct (projects_effect ProjectForm request st)
        as [?|(? & ? & _)].
    + by destruct (project_detail_effect ProjectForm request k st)
        as [?|(? & ? & ? & _)].
  - intros Hm. repeat split.
    + by destruct (CreateView_effect (ClientCreateView ClientForm)
                     request st (ClientCreateView_stamps _))
        as [?|(? & ? & _)].
    + by destruct (UpdateView_effect (ClientUpdateView ClientForm) k
                     request st (ClientUpdateView_inherits _)
                     (ClientUpdateView_filters _))
        as [?|(? & ? & ? & ? & _)].
    + by destruct (CreateView_effect (EntryCreateView EntryForm)
                     request st (EntryCreateView_stamps _))
        as [?|(? & ? & _)].
    + by destruct (CreateView_effect (ProjectCreateView ProjectForm)
                     request st (ProjectCreateView_stamps _))
        as [?|(? & ? & _)].
    + by destruct (UpdateView_effect (ProjectUpdateView ProjectForm) k
                     request st (ProjectUpdateView_inherits _)
                     (ProjectUpdateView_filters _))
        as [?|(? & ? & ? & ? & _)].
Qed.

Lemma only_posts_write_witness :
  (method put_request ≠ Method.POST
   ∧ ¬ posts (method detail_request))
  ∧ (clients SpecForms.ClientForm put_request own_state).2 = own_state
  ∧ (UpdateView (ClientUpdateView SpecForms.ClientForm) 1%N detail_request
       own_state).2 = own_state.
Proof.
  assert (method put_request ≠ Method.POST) as Hput by discriminate.
  assert (¬ posts (method detail_request)) as Hget
    by (intros [H|H]; discriminate H).
  split; [by split|]. split.
  - exact (proj1 (proj1 (only_posts_write
                           SpecForms.ClientForm SpecForms.ProjectForm
                           SpecForms.EntryForm put_request own_state 1%N)
                          Hput)).
  - exact (proj1 (proj2 (proj1 (proj2 (only_posts_write
                                         SpecForms.ClientForm
                                         SpecForms.ProjectForm
                                         SpecForms.EntryForm detail_request
                                         own_state 1%N))
                                 Hget))).
Defined.

(** X2: no request to a create view, function-based or class-based,
    changes or removes a stored row: the view's table still holds every row
    it held, unchanged, and at most one row more, and the other tables and
    the sessions are as they were. *)
Theorem create_views_only_add
    (ClientForm : FormClass Client ClientData)
    (ProjectForm : FormClass Project ProjectData)
    (EntryForm : FormClass Entry EntryData) request st :
  only_adds (R:=Client) st (clients ClientForm request st).2
  ∧ only_adds (R:=Client) st
      (CreateView (ClientCreateView ClientForm) request st).2
  ∧ only_adds (R:=Entry) st (entries EntryForm request st).2
  ∧ only_adds (R:=Entry) st
      (CreateView (EntryCreateView EntryForm) request st).2
  ∧ only_adds (R:=Project) st (projects ProjectForm request st).2
  ∧ only_adds (R:=Project) st
      (CreateView (ProjectCreateView ProjectForm) request st).2.
Proof.
  repeat split.
  - destruct (clients_effect ClientForm request st)
      as [->|(r & _ & _ & ->)];
      [apply only_adds_refl|apply save_insert_only_adds].
  - destruct (CreateView_effect (ClientCreateView ClientForm) request st
                (ClientCreateView_stamps _)) as [->|(r & _ & _ & ->)];
      [apply only_adds_refl|apply save_insert_only_adds].
  - destruct (entries_effect EntryForm request st)
      as [->|(r & _ & _ & ->)];
      [apply only_adds_refl|apply save_insert_only_adds].
  - destruct (CreateView_effect (EntryCreateView EntryForm) request st
                (EntryCreateView_stamps _)) as [->|(r & _ & _ & ->)];
      [apply only_adds_refl|apply save_insert_only_adds].
  - destruct (projects_effect ProjectForm request st)
      as [->|(r & _ & _ & ->)];
      [apply only_adds_refl|apply save_insert_only_adds].
  - destruct (CreateView_effect (ProjectCreateView ProjectForm) request st
                (ProjectCreateView_stamps _)) as [->|(r & _ & _ & ->)];
      [apply only_adds_refl|apply save_insert_only_adds].
Qed.

(** X3: no request to an update view, function-based or class-based, adds
    or removes a row: the view's table has the same primary keys as before,
    every row but the one the URL names is unchanged, and the other
    tables and the sessions are as they were. *)
Theorem update_views_only_rewrite
    (ClientForm : FormClass Client ClientData)
    (ProjectForm : FormClass Project ProjectData)
    request k st :
  only_rewrites (R:=Client) k st (client_detail ClientForm request k st).2
  ∧ only_rewrites (R:=Client) k st
      (UpdateView (ClientUpdateView ClientForm) k request st).2
  ∧ only_rewrites (R:=Project) k st
      (project_detail ProjectForm request k st).2
  ∧ only_rewrites (R:=Project) k st
      (UpdateView (ProjectUpdateView ProjectForm) k request st).2.
Proof.
  repeat split.
  - destruct (client_detail_effect ClientForm request k st)
      as [->|(old & r & _ & Hold & _ & ->)];
      [apply only_rewrites_refl|by eapply save_update_only_rewrites].
  - destruct (UpdateView_effect (ClientUpdateView ClientForm) k request st
                (ClientUpdateView_inherits _) (ClientUpdateView_filters _))
      as [->|(u & old & r & _ & _ & Hold & _ & _ & ->)];
      [apply only_rewrites_refl|by eapply save_update_only_rewrites].
  - destruct (project_detail_effect ProjectForm request k st)
      as [->|(old & r & _ & Hold & _ & ->)];
      [apply only_rewrites_refl|by eapply save_update_only_rewrites].
  - destruct (UpdateView_effect (ProjectUpdateView ProjectForm) k request st
                (ProjectUpdateView_inherits _) (ProjectUpdateView_filters _))
      as [->|(u & old & r & _ & _ & Hold & _ & _ & ->)];
      [apply only_rewrites_refl|by eapply save_update_only_rewrites].
Qed.

(** X4: whatever a request to a class-based view is, it leaves every row
    alone that the requester did not author: the only rows of the view's
    table that can differ afterwards are rows whose author is the logged-in
    requester and the row the request inserts, and nothing outside that
    table changes. *)
Theorem class_based_views_spare_foreign_rows
    (ClientForm : FormClass Client ClientData)
    (ProjectForm : FormClass Project ProjectData)
    (EntryForm : FormClass Entry EntryData) request k st :
  spares_foreign_rows (R:=Client) (user request) st
    (CreateView (ClientCreateView ClientForm) request st).2
  ∧ spares_foreign_rows (R:=Client) (user request) st
      (UpdateView (ClientUpdateView ClientForm) k request st).2
  ∧ spares_foreign_rows (R:=Entry) (user request) st
      (CreateView (EntryCreateView EntryForm) request st).2
  ∧ spares_foreign_rows (R:=Project) (user request) st
      (CreateView (ProjectCreateView ProjectForm) request st).2
  ∧ spares_foreign_rows (R:=Project) (user request) st
      (UpdateView (ProjectUpdateView ProjectForm) k request st).2.
Proof.
  repeat split.
  - destruct (CreateView_effect (ClientCreateView ClientForm) request st
                (ClientCreateView_stamps _)) as [->|(r & _ & _ & ->)];
      [apply spares_foreign_rows_refl|apply save_insert_spares].
  - destruct (UpdateView_effect (ClientUpdateView ClientForm) k request st
                (ClientUpdateView_inherits _) (ClientUpdateView_filters _))
      as [->|(u & old & r & _ & -> & Hold & Ha & _ & ->)];
      [apply spares_foreign_rows_refl|by eapply save_update_spares].
  - destruct (CreateView_effect (EntryCreateView EntryForm) request st
                (EntryCreateView_stamps _)) as [->|(r & _ & _ & ->)];
      [apply spares_foreign_rows_refl|apply save_insert_spares].
  - destruct (CreateView_effect (ProjectCreateView ProjectForm) request st
                (ProjectCreateView_stamps _)) as [->|(r & _ & _ & ->)];
      [apply spares_foreign_rows_refl|apply save_insert_spares].
  - destruct (UpdateView_effect (ProjectUpdateView ProjectForm) k request st
                (ProjectUpdateView_inherits _) (ProjectUpdateView_filters _))
      as [->|(u & old & r & _ & -> & Hold & Ha & _ & ->)];
      [apply spares_foreign_rows_refl|by eapply save_update_spares].
Qed.

(** ** Login *)

(** X5: every view class that lists [LoginRequiredMixin] answers a request
    of a visitor who is not logged in, whatever its method and data, with
    the redirect to the login page that carries the requested path, and
    leaves the store alone; [ClientRedirectView] sends a logged-in user on
    to the client list for every method but TRACE, which it does not
    allow. *)
Theorem login_required_views_turn_visitors_away
    (ClientForm : FormClass Client ClientData)
    (ProjectForm : FormClass Project ProjectData)
    (EntryForm : FormClass Entry EntryData) request st k :
  (user request = None →
   UpdateView (ClientUpdateView ClientForm) k request st
   = (HttpResponseRedirect (login_url (path request)), st)
   ∧ CreateView (EntryCreateView EntryForm) request st
     = (HttpResponseRedirect (login_url (path request)), st)
   ∧ CreateView (ProjectCreateView ProjectForm) request st
     = (HttpResponseRedirect (login_url (path request)), st)
   ∧ UpdateView (ProjectUpdateView ProjectForm) k request st
     = (HttpResponseRedirect (login_url (path request)), st)
   ∧ @ClientRedirectView Client ClientData request st
     = (HttpResponseRedirect (login_url (path request)), st))
  ∧ (is_Some (user request) →
     (method request ≠ Method.TRACE →
      @ClientRedirectView Client ClientData request st
      = (HttpResponseRedirect (reverse "client-list"), st))
     ∧ (method request = Method.TRACE →
        @ClientRedirectView Client ClientData request st
        = (HttpResponseNotAllowed, st))).
Proof.
  split.
  - intros Hu.
    destruct (guarded_views_redirect_anonymous ClientForm ProjectForm
                EntryForm request st k Hu) as (He & Hp & Hcu & Hpu).
    repeat split; try done.
    unfold ClientRedirectView, login_required. by rewrite Hu.
  - intros [u Hu]. unfold ClientRedirectView, login_required. rewrite Hu.
    simpl. split; intros Hm; [by destruct (method request)|by rewrite Hm].
Qed.

Lemma login_required_views_turn_visitors_away_witness :
  (user anonymous_rename_request = None ∧ is_Some (user detail_request)
   ∧ method detail_request ≠ Method.TRACE)
  ∧ UpdateView (ClientUpdateView SpecForms.ClientForm) 1%N
      anonymous_rename_request sample_state
    = (HttpResponseRedirect (login_url "/clients/1/"), sample_state)
  ∧ @ClientRedirectView Client ClientData detail_request sample_state
    = (HttpResponseRedirect (reverse "client-list"), sample_state).
Proof.
  assert (is_Some (user detail_request)) as Hin by (by eexists).
  assert (method detail_request ≠ Method.TRACE) as Hm by discriminate.
  split; [by repeat split|]. split.
  - exact (proj1 (proj1 (login_required_views_turn_visitors_away
                           SpecForms.ClientForm SpecForms.ProjectForm
                           SpecForms.EntryForm anonymous_rename_request
                           sample_state 1%N) eq_refl)).
  - exact (proj1 (proj2 (login_required_views_turn_visitors_away
                           SpecForms.ClientForm SpecForms.ProjectForm
                           SpecForms.EntryForm detail_request
                           sample_state 1%N) Hin) Hm).
Defined.

(** X6: a visitor who is not logged in cannot create a client through
    [ClientCreateView], although the view lets the request in: no request
    of such a visitor changes the store, and a POST with valid data ends in
    the [ValueError] that assigning the anonymous user as author raises. *)
Theorem ClientCreateView_never_saves_for_visitors
    (ClientForm : FormClass Client ClientData) request st :
  user request = None →
  (CreateView (ClientCreateView ClientForm) request st).2 = st
  ∧ (method request = Method.POST →
     is_valid ClientForm st None (POST request) = true →
     CreateView (ClientCreateView ClientForm) request st
     = (HttpResponseServerError ValueError, st)).
Proof.
  intros Hu. split.
  - destruct (CreateView_effect (ClientCreateView ClientForm) request st
                (ClientCreateView_stamps _))
      as [?|(r & _ & [u Hsome] & _)]; [done|congruence].
  - intros Hm Hv.
    unfold CreateView, dispatch, View_dispatch, ProcessFormView_post. simpl.
    rewrite Hm, Hv. simpl. unfold assign_author. by rewrite Hu.
Qed.

Lemma ClientCreateView_never_saves_for_visitors_witness :
  (user anonymous_acme_request = None
   ∧ method anonymous_acme_request = Method.POST
   ∧ is_valid SpecForms.ClientForm sample_state None
       (POST anonymous_acme_request) = true)
  ∧ CreateView (ClientCreateView SpecForms.ClientForm)
      anonymous_acme_request sample_state
    = (HttpResponseServerError ValueError, sample_state).
Proof.
  split; [by repeat split|].
  exact (proj2 (ClientCreateView_never_saves_for_visitors
                  SpecForms.ClientForm anonymous_acme_request sample_state
                  eq_refl) eq_refl eq_refl).
Defined.

(** ** Updating a row *)

Section UpdateFacts.
Context {R C : Type} `{!Model R} `{!ModelForm R C}.
Context `{!ModelLaws R} `{!ModelFormLaws R C}.
Implicit Types (v : View R C) (request : HttpRequest) (st : State).

Lemma UpdateView_valid_post v request st (u : user_id) k old :
  inherits_form_valid v → filters_by_author v →
  user request = Some u → method request = Method.POST →
  objects st !! k = Some old → author old = Some u →
  is_valid (form_class v) st (Some k) (POST request) = true →
  UpdateView v k request st
  = (HttpResponseRedirect (success_url v),
     (save (Some k)
        (construct_instance
           (cleaned_data (form_class v) st (Some k) (POST request)) old)
        st).2).
Proof.
  intros Hfv Hq Hu Hm Hk Ha Hv.
  rewrite (UpdateView_own_row v request st u k old) by done.
  unfold View_dispatch, ProcessFormView_post. rewrite Hm. simpl.
  by rewrite Hv, Hfv.
Qed.

Lemma UpdateView_get v request st (u : user_id) k r :
  plain_context v → filters_by_author v →
  user request = Some u → method request = Method.GET →
  objects st !! k = Some r → author r = Some u →
  UpdateView v k request st
  = (TemplateResponse (template_name v)
       (SingleObjectMixin_get_context_data (Some r)
          (UnboundForm (Some (model_to_dict r)))),
     st).
Proof.
  intros Hc Hq Hu Hm Hk Ha.
  rewrite (UpdateView_own_row v request st u k r) by done.
  unfold View_dispatch, ProcessFormView_get. rewrite Hm. simpl.
  by rewrite Hc.
Qed.
End UpdateFacts.

(** X7: when a logged-in user U POSTs valid data to [ClientUpdateView] or
    [ProjectUpdateView] for a row of their own, the answer is the redirect
    to the list page, the row now holds the cleaned form fields and still
    has author U, nothing else in the store changes, and a GET of U for
    the same row afterwards shows that row and a form filled with those
    fields. *)
Theorem update_views_round_trip
    (ClientForm : FormClass Client ClientData)
    (ProjectForm : FormClass Project ProjectData)
    (U : user_id) request request' st k :
  user request = Some U → method request = Method.POST →
  user request' = Some U → method request' = Method.GET →
  (∀ old, Client_objects st !! k = Some old → client_author old = Some U →
     is_valid ClientForm st (Some k) (POST request) = true →
     let cleaned := cleaned_data ClientForm st (Some k) (POST request) in
     let row := mkClient (cd_name cleaned) (Some U) in
     let st' := set_objects (<[k := row]> (Client_objects st)) st in
     UpdateView (ClientUpdateView ClientForm) k request st
     = (HttpResponseRedirect (reverse "client-list"), st')
     ∧ ∃ context,
         UpdateView (ClientUpdateView ClientForm) k request' st'
         = (TemplateResponse "client_detail.html" context, st')
         ∧ context !! "client" = Some (CtxObject row)
         ∧ context !! "form"
           = Some (CtxForm (UnboundForm
                              (Some (mkClientData (cd_name cleaned))))))
  ∧ (∀ old, Project_objects st !! k = Some old →
       project_author old = Some U →
       is_valid ProjectForm st (Some k) (POST request) = true →
       let cleaned := cleaned_data ProjectForm st (Some k) (POST request) in
       let row := mkProject (pd_name cleaned) (pd_client cleaned) (Some U) in
       let st' := set_objects (<[k := row]> (Project_objects st)) st in
       UpdateView (ProjectUpdateView ProjectForm) k request st
       = (HttpResponseRedirect (reverse "project-list"), st')
       ∧ ∃ context,
           UpdateView (ProjectUpdateView ProjectForm) k request' st'
           = (TemplateResponse "project_detail.html" context, st')
           ∧ context !! "project" = Some (CtxObject row)
           ∧ context !! "form"
             = Some (CtxForm
                       (UnboundForm
                          (Some (mkProjectData (pd_name cleaned)
                                               (pd_client cleaned)))))).
Proof.
  intros Hu Hm Hu' Hm'. split; intros old Hk Ha Hv cleaned row st'.
  - split.
    + rewrite (UpdateView_valid_post (ClientUpdateView ClientForm)
                 request st U k old) by done.
      simpl. unfold row, cleaned. by rewrite Ha.
    + eexists. split.
      * apply (UpdateView_get (ClientUpdateView ClientForm) request' st' U k
                 row); try done.
        unfold st'. simpl. apply lookup_insert_eq.
      * split; reflexivity.
  - split.
    + rewrite (UpdateView_valid_post (ProjectUpdateView ProjectForm)
                 request st U k old) by done.
      simpl. unfold row, cleaned. by rewrite Ha.
    + eexists. split.
      * apply (UpdateView_get (ProjectUpdateView ProjectForm) request' st' U
                 k row); try done.
        unfold st'. simpl. apply lookup_insert_eq.
      * split; reflexivity.
Qed.

Lemma update_views_round_trip_witness :
  (user rename_request = Some 1%N ∧ method rename_request = Method.POST
   ∧ user detail_request = Some 1%N ∧ method detail_request = Method.GET
   ∧ Client_objects own_state !! 1%N = Some (mkClient "Initech" (Some 1%N))
   ∧ is_valid SpecForms.ClientForm own_state (Some 1%N)
       (POST rename_request) = true)
  ∧ (UpdateView (ClientUpdateView SpecForms.ClientForm) 1%N rename_request
       own_state).1
    = HttpResponseRedirect (reverse "client-list")
  ∧ Client_objects
      (UpdateView (ClientUpdateView SpecForms.ClientForm) 1%N rename_request
         own_state).2 !! 1%N
    = Some (mkClient "Mine" (Some 1%N)).
Proof.
  split; [by repeat split|].
  destruct (proj1 (update_views_round_trip
                     SpecForms.ClientForm SpecForms.ProjectForm 1%N
                     rename_request detail_request own_state 1%N
                     eq_refl eq_refl eq_refl eq_refl)
              _ eq_refl eq_refl eq_refl) as [Hpost _].
  rewrite Hpost. by split.
Defined.

(** X8: the deprecated update views check neither login nor ownership: a
    POST with valid data for the primary key of a stored row, from any
    requester, logged in or not, overwrites the form fields of that row,
    whoever its author is, keeps the author, changes nothing else, and is
    answered with the redirect to the list page. *)
Theorem deprecated_detail_views_update_any_row
    (ClientForm : FormClass Client ClientData)
    (ProjectForm : FormClass Project ProjectData) request k st :
  method request = Method.POST →
  (∀ old, Client_objects st !! k = Some old →
     is_valid ClientForm st None (POST request) = true →
     client_detail ClientForm request k st
     = (HttpResponseRedirect (reverse "client-list"),
        set_objects
          (<[k := mkClient
                    (cd_name (cleaned_data ClientForm st None
                                (POST request)))
                    (client_author old)]> (Client_objects st))
          st))
  ∧ (∀ old, Project_objects st !! k = Some old →
       is_valid ProjectForm st None (POST request) = true →
       project_detail ProjectForm request k st
       = (HttpResponseRedirect (reverse "project-list"),
          set_objects
            (<[k := mkProject
                      (pd_name (cleaned_data ProjectForm st None
                                  (POST request)))
                      (pd_client (cleaned_data ProjectForm st None
                                    (POST request)))
                      (project_author old)]> (Project_objects st))
            st)).
Proof.
  intros Hm. split; intros old Hk Hv.
  - unfold client_detail, get_object_or_404. simpl.
    by rewrite Hk, Hm, Hv.
  - unfold project_detail, get_object_or_404. simpl.
    by rewrite Hk, Hm, Hv.
Qed.

Lemma deprecated_detail_views_update_any_row_witness :
  (method anonymous_rename_request = Method.POST
   ∧ user anonymous_rename_request = None
   ∧ Client_objects sample_state !! 1%N
     = Some (mkClient "Initech" (Some 2%N))
   ∧ is_valid SpecForms.ClientForm sample_state None
       (POST anonymous_rename_request) = true)
  ∧ Client_objects
      (client_detail SpecForms.ClientForm anonymous_rename_request 1%N
         sample_state).2 !! 1%N
    = Some (mkClient "Mine" (Some 2%N)).
Proof.
  split; [by repeat split|].
  rewrite (proj1 (deprecated_detail_views_update_any_row
                    SpecForms.ClientForm SpecForms.ProjectForm
                    anonymous_rename_request 1%N sample_state eq_refl)
             _ eq_refl eq_refl).
  reflexivity.
Defined.

(** X9: for a primary key in the database's range, the deprecated update
    views answer not-found exactly when no row has that key, whatever the
    method, the data and the requester; the second fetch of
    [project_detail] never fails once the first one has found the
    project. *)
Theorem deprecated_detail_views_not_found_iff_missing
    (ClientForm : FormClass Client ClientData)
    (ProjectForm : FormClass Project ProjectData) request k st :
  in_database_range k →
  ((client_detail ClientForm request k st).1 = HttpResponseNotFound
   ↔ Client_objects st !! k = None)
  ∧ ((project_detail ProjectForm request k st).1 = HttpResponseNotFound
     ↔ Project_objects st !! k = None).
Proof.
  intros _. split.
  - unfold client_detail, get_object_or_404. simpl.
    destruct (Client_objects st !! k) as [client|]; [|done].
    split; [|done].
    destruct (method request); try discriminate.
    by destruct (is_valid _ _ _ _).
  - unfold project_detail, get_object_or_404. simpl.
    destruct (Project_objects st !! k) as [project|]; [|done].
    split; [|done].
    destruct (method request); try discriminate.
    by destruct (is_valid _ _ _ _).
Qed.

Lemma deprecated_detail_views_not_found_iff_missing_witness :
  in_database_range 7%N
  ∧ (client_detail SpecForms.ClientForm detail_request 7%N sample_state).1
    = HttpResponseNotFound
  ∧ (client_detail SpecForms.ClientForm detail_request 1%N sample_state).1
    ≠ HttpResponseNotFound.
Proof.
  assert (in_database_range 7%N) as H7 by reflexivity.
  assert (in_database_range 1%N) as H1 by reflexivity.
  split; [exact H7|]. split.
  - by apply (proj1 (deprecated_detail_views_not_found_iff_missing
                       SpecForms.ClientForm SpecForms.ProjectForm
                       detail_request 7%N sample_state H7)).
  - intros Hnf.
    apply (proj1 (deprecated_detail_views_not_found_iff_missing
                    SpecForms.ClientForm SpecForms.ProjectForm
                    detail_request 1%N sample_state H1)) in Hnf.
    discriminate Hnf.
Defined.

(** X10: for a logged-in user U, a GET, HEAD, POST or PUT, and a primary
    key in the database's range, [ClientUpdateView] and
    [ProjectUpdateView] answer not-found exactly when the key names no row
    that U authored: a missing row and a row of somebody else look the
    same. *)
Theorem update_views_not_found_iff_not_own
    (ClientForm : FormClass Client ClientData)
    (ProjectForm : FormClass Project ProjectData)
    (U : user_id) request k st :
  in_database_range k →
  user request = Some U →
  method request = Method.GET ∨ method request = Method.HEAD
  ∨ posts (method request) →
  ((UpdateView (ClientUpdateView ClientForm) k request st).1
   = HttpResponseNotFound
   ↔ ¬ ∃ row, Client_objects st !! k = Some row
              ∧ client_author row = Some U)
  ∧ ((UpdateView (ProjectUpdateView ProjectForm) k request st).1
     = HttpResponseNotFound
     ↔ ¬ ∃ row, Project_objects st !! k = Some row
                ∧ project_author row = Some U).
Proof.
  intros _ Hu Hm. split.
  - unfold UpdateView, dispatch, login_required, View_dispatch,
      BaseUpdateView_get, BaseUpdateView_post. simpl. rewrite Hu. simpl.
    rewrite !(get_object_filtered (ClientUpdateView ClientForm) request st U
                k (ClientUpdateView_filters _) Hu). simpl.
    destruct (Client_objects st !! k) as [row|] eqn:Hk.
    + destruct (decide (client_author row = Some U)) as [Ha|Ha].
      * split; [|intros []; eauto].
        unfold ProcessFormView_get, ProcessFormView_post. simpl.
        destruct Hm as [-> | [-> | [-> | ->]]]; try discriminate;
          by destruct (is_valid _ _ _ _).
      * split; [|by destruct Hm as [-> | [-> | [-> | ->]]]].
        intros _ (row' & [= <-] & Ha'). done.
    + split; [|by destruct Hm as [-> | [-> | [-> | ->]]]].
      by intros _ (row' & ? & _).
  - unfold UpdateView, dispatch, login_required, View_dispatch,
      BaseUpdateView_get, BaseUpdateView_post. simpl. rewrite Hu. simpl.
    rewrite !(get_object_filtered (ProjectUpdateView ProjectForm) request st
                U k (ProjectUpdateView_filters _) Hu). simpl.
    destruct (Project_objects st !! k) as [row|] eqn:Hk.
    + destruct (decide (project_author row = Some U)) as [Ha|Ha].
      * split; [|intros []; eauto].
        unfold ProcessFormView_get, ProcessFormView_post. simpl.
        destruct Hm as [-> | [-> | [-> | ->]]]; try discriminate;
          by destruct (is_valid _ _ _ _).
      * split; [|by destruct Hm as [-> | [-> | [-> | ->]]]].
        intros _ (row' & [= <-] & Ha'). done.
    + split; [|by destruct Hm as [-> | [-> | [-> | ->]]]].
      by intros _ (row' & ? & _).
Qed.

Lemma update_views_not_found_iff_not_own_witness :
  (in_database_range 1%N ∧ user detail_request = Some 1%N
   ∧ (method detail_request = Method.GET
      ∨ method detail_request = Method.HEAD
      ∨ posts (method detail_request)))
  ∧ (UpdateView (ClientUpdateView SpecForms.ClientForm) 1%N detail_request
       sample_state).1 = HttpResponseNotFound
  ∧ (UpdateView (ClientUpdateView SpecForms.ClientForm) 1%N detail_request
       own_state).1 ≠ HttpResponseNotFound.
Proof.
  assert (method detail_request = Method.GET
          ∨ method detail_request = Method.HEAD
          ∨ posts (method detail_request)) as Hm by (by left).
  assert (in_database_range 1%N) as H1 by reflexivity.
  split; [by repeat split|]. split.
  - apply (proj1 (update_views_not_found_iff_not_own
                    SpecForms.ClientForm SpecForms.ProjectForm 1%N
                    detail_request 1%N sample_state H1 eq_refl Hm)).
    intros (row & Hk & Ha). vm_compute in Hk. injection Hk as <-.
    discriminate Ha.
  - intros Hnf.
    apply (proj1 (update_views_not_found_iff_not_own
                    SpecForms.ClientForm SpecForms.ProjectForm 1%N
                    detail_request 1%N own_state H1 eq_refl Hm)) in Hnf.
    apply Hnf. by eexists.
Defined.

(** ** Histories *)

Lemma own_table_frame_Client st st' :
  writes_own_table (R:=Client) st st' →
  Project_objects st' = Project_objects st
  ∧ Entry_objects st' = Entry_objects st.
Proof. by intros (t' & -> & _). Qed.

Lemma own_table_frame_Project st st' :
  writes_own_table (R:=Project) st st' →
  Client_objects st' = Client_objects st
  ∧ Entry_objects st' = Entry_objects st.
Proof. by intros (t' & -> & _). Qed.

Lemma only_adds_Entry st st' :
  only_adds (R:=Entry) st st' → Entry_objects st ⊆ Entry_objects st'.
Proof. by intros (t' & -> & Hsub & _). Qed.

Section HistoryFacts.
Variable ClientForm : FormClass Client ClientData.
Variable ProjectForm : FormClass Project ProjectData.
Variable EntryForm : FormClass Entry EntryData.

Lemma step_keeps_entries st st' :
  step ClientForm ProjectForm EntryForm st st' →
  Entry_objects st ⊆ Entry_objects st'.
Proof.
  destruct 1.
  - by rewrite (proj2 (own_table_frame_Client _ _
                         (clients_writes ClientForm request st))).
  - by rewrite (proj2 (own_table_frame_Client _ _
                         (CreateView_writes (ClientCreateView ClientForm)
                            request st (ClientCreateView_stamps _)))).
  - by rewrite (proj2 (own_table_frame_Client _ _
                         (client_detail_writes ClientForm request k st))).
  - by rewrite (proj2 (own_table_frame_Client _ _
                         (UpdateView_writes (ClientUpdateView ClientForm) k
                            request st (ClientUpdateView_inherits _)
                            (ClientUpdateView_filters _)))).
  - apply only_adds_Entry.
    destruct (entries_effect EntryForm request st)
      as [->|(r & _ & _ & ->)];
      [apply only_adds_refl|apply save_insert_only_adds].
  - apply only_adds_Entry.
    destruct (CreateView_effect (EntryCreateView EntryForm) request st
                (EntryCreateView_stamps _)) as [->|(r & _ & _ & ->)];
      [apply only_adds_refl|apply save_insert_only_adds].
  - by rewrite (proj2 (own_table_frame_Project _ _
                         (projects_writes ProjectForm request st))).
  - by rewrite (proj2 (own_table_frame_Project _ _
                         (CreateView_writes (ProjectCreateView ProjectForm)
                            request st (ProjectCreateView_stamps _)))).
  - by rewrite (proj2 (own_table_frame_Project _ _
                         (project_detail_writes ProjectForm request k st))).
  - by rewrite (proj2 (own_table_frame_Project _ _
                         (UpdateView_writes (ProjectUpdateView ProjectForm)
                            k request st (ProjectUpdateView_inherits _)
                            (ProjectUpdateView_filters _)))).
  - unfold ClientRedirectView, login_required.
    by destruct (is_authenticated (user request)), (method request).
  - done.
Qed.
End HistoryFacts.

(** X11: no view updates or deletes an entry: over any sequence of
    requests to the views, every stored entry stays in the table, under its
    primary key, with every field and its author exactly as stored. *)
Theorem entries_are_never_changed
    (ClientForm : FormClass Client ClientData)
    (ProjectForm : FormClass Project ProjectData)
    (EntryForm : FormClass Entry EntryData) st st' :
  rtc (step ClientForm ProjectForm EntryForm) st st' →
  ∀ k entry, Entry_objects st !! k = Some entry →
             Entry_objects st' !! k = Some entry.
Proof.
  induction 1 as [st|st1 st2 st3 Hstep _ IH]; [done|].
  intros k entry Hk. apply IH.
  apply step_keeps_entries in Hstep. by eapply lookup_weaken.
Qed.

Lemma entries_are_never_changed_witness :
  rtc (step SpecForms.ClientForm SpecForms.ProjectForm SpecForms.EntryForm)
    sample_state
    (entries SpecForms.EntryForm full_request
       (CreateView (EntryCreateView SpecForms.EntryForm) full_request
          sample_state).2).2
  ∧ Entry_objects
      (entries SpecForms.EntryForm full_request
         (CreateView (EntryCreateView SpecForms.EntryForm) full_request
            sample_state).2).2 !! 1%N
    = Some (mkEntry (Some 100%Z) (Some 200%Z) (Some 1%N) "survey"
                    (Some 2%N)).
Proof.
  assert (rtc (step SpecForms.ClientForm SpecForms.ProjectForm
                 SpecForms.EntryForm)
            sample_state
            (entries SpecForms.EntryForm full_request
               (CreateView (EntryCreateView SpecForms.EntryForm)
                  full_request sample_state).2).2) as Hsteps.
  { eapply rtc_l; [apply step_EntryCreateView|].
    apply rtc_once, step_entries. }
  split; [exact Hsteps|].
  exact (entries_are_never_changed _ _ _ _ _ Hsteps 1%N _ eq_refl).
Defined.

(** X12: over any sequence of requests to the views, no row of any table
    is deleted and no row changes its author: ownership, once stored, is
    permanent. *)
Theorem stored_rows_keep_their_author
    (ClientForm : FormClass Client ClientData)
    (ProjectForm : FormClass Project ProjectData)
    (EntryForm : FormClass Entry EntryData) st st' :
  rtc (step ClientForm ProjectForm EntryForm) st st' →
  (∀ k r, Client_objects st !! k = Some r →
     ∃ r', Client_objects st' !! k = Some r'
           ∧ client_author r' = client_author r)
  ∧ (∀ k r, Project_objects st !! k = Some r →
       ∃ r', Project_objects st' !! k = Some r'
             ∧ project_author r' = project_author r)
  ∧ (∀ k r, Entry_objects st !! k = Some r →
       ∃ r', Entry_objects st' !! k = Some r'
             ∧ entry_author r' = entry_author r).
Proof. intros Hsteps. by apply steps_keep_authors in Hsteps. Qed.

Lemma stored_rows_keep_their_author_witness :
  rtc (step SpecForms.ClientForm SpecForms.ProjectForm SpecForms.EntryForm)
    sample_state
    (client_detail SpecForms.ClientForm anonymous_rename_request 1%N
       sample_state).2
  ∧ ∃ r', Client_objects
            (client_detail SpecForms.ClientForm anonymous_rename_request
               1%N sample_state).2 !! 1%N = Some r'
          ∧ client_author r' = Some 2%N.
Proof.
  assert (rtc (step SpecForms.ClientForm SpecForms.ProjectForm
                 SpecForms.EntryForm)
            sample_state
            (client_detail SpecForms.ClientForm anonymous_rename_request
               1%N sample_state).2) as Hsteps
    by apply rtc_once, step_client_detail.
  split; [exact Hsteps|].
  exact (proj1 (stored_rows_keep_their_author _ _ _ _ _ Hsteps)
           1%N (mkClient "Initech" (Some 2%N)) eq_refl).
Defined.

(** ** Logout and the other sessions *)

(** X13: logging out ends the session of the request and no other: every
    other session in the store still names its user; a request without a
    session cookie changes nothing at all; and logging out a second time
    with the same request changes nothing more. *)
Theorem logout_ends_one_session (R C : Type) request st :
  (∀ key, session request ≠ Some key →
     sessions (@logout R C request st).2 !! key = sessions st !! key)
  ∧ (session request = None → (@logout R C request st).2 = st)
  ∧ (@logout R C request (@logout R C request st).2).2
    = (@logout R C request st).2.
Proof.
  unfold logout. simpl. split; [|split].
  - intros key Hne. destruct (session request) as [key'|]; [|done].
    apply lookup_delete_ne. congruence.
  - intros ->. by destruct st.
  - destruct (session request) as [key|]; [|done].
    f_equal. apply delete_delete_eq.
Qed.

Lemma logout_ends_one_session_witness :
  session acme_request ≠ Some "xyz"
  ∧ sessions (@logout Client ClientData acme_request two_sessions).2 !! "xyz"
    = Some 2%N
  ∧ sessions (@logout Client ClientData acme_request two_sessions).2 !! "abc"
    = None.
Proof.
  assert (session acme_request ≠ Some "xyz") as Hne by discriminate.
  split; [exact Hne|]. split; [|reflexivity].
  rewrite (proj1 (logout_ends_one_session Client ClientData acme_request
                    two_sessions) "xyz" Hne).
  reflexivity.
Defined.

(** ** Applying the migrations *)

(** X14: because the author column they add is nullable, the migrations
    apply whatever rows the tables hold: 0004 to every database whose entry
    table has no author column, and 0005 after it to every database whose
    client and project tables have none; together they turn the three
    tables into the same tables with an author column that is NULL in
    every row. *)
Theorem migrations_apply_whatever_the_rows db entry client project :
  db !! "entry" = Some entry → db !! "client" = Some client →
  db !! "project" = Some project →
  Migrations.fields entry !! "author" = None →
  Migrations.fields client !! "author" = None →
  Migrations.fields project !! "author" = None →
  Migrations.apply Migrations.Migration_0004_entry_author db
  = Some (<["entry" := Migrations.with_author_column entry]> db)
  ∧ Migrations.apply Migrations.Migration_0005_auto_20150909_0538
      (<["entry" := Migrations.with_author_column entry]> db)
    = Some (<["project" := Migrations.with_author_column project]>
              (<["client" := Migrations.with_author_column client]>
                 (<["entry" := Migrations.with_author_column entry]> db))).
Proof.
  intros He Hc Hp Hfe Hfc Hfp. split.
  - unfold Migrations.apply. simpl. rewrite He. simpl. by rewrite Hfe.
  - unfold Migrations.apply. simpl.
    rewrite lookup_insert_ne by done. rewrite Hc. simpl. rewrite Hfc. simpl.
    rewrite lookup_insert_ne by done. rewrite lookup_insert_ne by done.
    rewrite Hp. simpl. by rewrite Hfp.
Qed.

Lemma migrations_apply_whatever_the_rows_witness :
  (Migrations.sample_db !! "entry" = Some Migrations.sample_entry_table
   ∧ Migrations.sample_db !! "client" = Some Migrations.sample_client_table
   ∧ Migrations.sample_db !! "project"
     = Some Migrations.sample_project_table
   ∧ Migrations.fields Migrations.sample_entry_table !! "author" = None
   ∧ Migrations.fields Migrations.sample_client_table !! "author" = None
   ∧ Migrations.fields Migrations.sample_project_table !! "author" = None)
  ∧ Migrations.apply Migrations.Migration_0005_auto_20150909_0538
      Migrations.sample_db_0004
    = Some Migrations.sample_db_0005.
Proof.
  split; [by repeat split|].
  exact (proj2 (migrations_apply_whatever_the_rows
                  Migrations.sample_db Migrations.sample_entry_table
                  Migrations.sample_client_table
                  Migrations.sample_project_table
                  eq_refl eq_refl eq_refl eq_refl eq_refl eq_refl)).
Defined.

(** ** Creating, then editing *)

(** X16: the row a logged-in user U creates through [ClientCreateView] or
    [ProjectCreateView] is from then on U's to edit and nobody else's: a
    GET of U to the update view with the new primary key shows the row,
    while a GET or POST of any other logged-in user V for that key is
    answered with not-found. *)
Theorem created_rows_are_their_authors_to_edit
    (ClientForm : FormClass Client ClientData)
    (ProjectForm : FormClass Project ProjectData)
    (U V : user_id) request request_u request_v st :
  user request = Some U → method request = Method.POST →
  user request_u = Some U → method request_u = Method.GET →
  user request_v = Some V → V ≠ U →
  method request_v = Method.GET ∨ method request_v = Method.POST →
  (is_valid ClientForm st None (POST request) = true →
   let k := next_pk (Client_objects st) in
   let row :=
     mkClient (cd_name (cleaned_data ClientForm st None (POST request)))
              (Some U) in
   let st' := (CreateView (ClientCreateView ClientForm) request st).2 in
   Client_objects st' !! k = Some row
   ∧ (∃ context,
        UpdateView (ClientUpdateView ClientForm) k request_u st'
        = (TemplateResponse "client_detail.html" context, st')
        ∧ context !! "client" = Some (CtxObject row))
   ∧ UpdateView (ClientUpdateView ClientForm) k request_v st'
     = (HttpResponseNotFound, st'))
  ∧ (is_valid ProjectForm st None (POST request) = true →
     let k := next_pk (Project_objects st) in
     let row :=
       mkProject
         (pd_name (cleaned_data ProjectForm st None (POST request)))
         (pd_client (cleaned_data ProjectForm st None (POST request)))
         (Some U) in
     let st' := (CreateView (ProjectCreateView ProjectForm) request st).2 in
     Project_objects st' !! k = Some row
     ∧ (∃ context,
          UpdateView (ProjectUpdateView ProjectForm) k request_u st'
          = (TemplateResponse "project_detail.html" context, st')
          ∧ context !! "project" = Some (CtxObject row))
     ∧ UpdateView (ProjectUpdateView ProjectForm) k request_v st'
       = (HttpResponseNotFound, st')).
Proof.
  intros Hu Hm Huu Hmu Huv Hne Hmv. split; intros Hv k row st'.
  - assert (Client_objects st' !! k = Some row) as Hk.
    { unfold st'.
      rewrite (CreateView_valid_post (ClientCreateView ClientForm)
                 request st U) by done.
      simpl. apply lookup_insert_eq. }
    split; [exact Hk|]. split.
    + eexists. split.
      * by apply (UpdateView_get (ClientUpdateView ClientForm) request_u st'
                    U k row).
      * reflexivity.
    + apply (UpdateView_foreign_row (ClientUpdateView ClientForm) request_v
               st' V k row); try done.
      simpl. congruence.
  - assert (Project_objects st' !! k = Some row) as Hk.
    { unfold st'.
      rewrite (CreateView_valid_post (ProjectCreateView ProjectForm)
                 request st U) by done.
      simpl. apply lookup_insert_eq. }
    split; [exact Hk|]. split.
    + eexists. split.
      * by apply (UpdateView_get (ProjectUpdateView ProjectForm) request_u
                    st' U k row).
      * reflexivity.
    + apply (UpdateView_foreign_row (ProjectUpdateView ProjectForm)
               request_v st' V k row); try done.
      simpl. congruence.
Qed.

Lemma created_rows_are_their_authors_to_edit_witness :
  (user acme_request = Some 1%N ∧ method acme_request = Method.POST
   ∧ user detail_request = Some 1%N ∧ method detail_request = Method.GET
   ∧ user other_user_request = Some 2%N ∧ 2%N ≠ 1%N
   ∧ (method other_user_request = Method.GET
      ∨ method other_user_request = Method.POST)
   ∧ is_valid SpecForms.ClientForm sample_state None (POST acme_request)
     = true)
  ∧ Client_objects
      (CreateView (ClientCreateView SpecForms.ClientForm) acme_request
         sample_state).2 !! 2%N
    = Some (mkClient "Acme" (Some 1%N))
  ∧ UpdateView (ClientUpdateView SpecForms.ClientForm) 2%N
      other_user_request
      (CreateView (ClientCreateView SpecForms.ClientForm) acme_request
         sample_state).2
    = (HttpResponseNotFound,
       (CreateView (ClientCreateView SpecForms.ClientForm) acme_request
          sample_state).2).
Proof.
  assert (2%N ≠ 1%N) as Hne by discriminate.
  split; [repeat split; first [done | by left]|].
  destruct (proj1 (created_rows_are_their_authors_to_edit
                     SpecForms.ClientForm SpecForms.ProjectForm 1%N 2%N
                     acme_request detail_request other_user_request
                     sample_state eq_refl eq_refl eq_refl eq_refl eq_refl
                     Hne (or_introl eq_refl)) eq_refl)
    as (Hk & _ & Hv).
  split; [exact Hk|exact Hv].
Defined.

(** ** The deprecated views and the requester *)

(** X17: the deprecated create views ask for no login: a POST with valid
    data, from any requester, logged in or not, is answered with the
    redirect to the list page and inserts, under the next primary key, a
    row that holds the cleaned form fields and no author; nothing else in
    the store changes. *)
Theorem deprecated_create_views_serve_anyone
    (ClientForm : FormClass Client ClientData)
    (ProjectForm : FormClass Project ProjectData)
    (EntryForm : FormClass Entry EntryData) request st :
  method request = Method.POST →
  (is_valid ClientForm st None (POST request) = true →
   clients ClientForm request st
   = (HttpResponseRedirect (reverse "client-list"),
      set_objects
        (<[next_pk (Client_objects st) :=
             mkClient
               (cd_name (cleaned_data ClientForm st None (POST request)))
               None]> (Client_objects st))
        st))
  ∧ (is_valid EntryForm st None (POST request) = true →
     let cleaned := cleaned_data EntryForm st None (POST request) in
     entries EntryForm request st
     = (HttpResponseRedirect (reverse "entry-list"),
        set_objects
          (<[next_pk (Entry_objects st) :=
               mkEntry (ed_start cleaned) (ed_stop cleaned)
                       (ed_project cleaned) (ed_description cleaned)
                       None]> (Entry_objects st))
          st))
  ∧ (is_valid ProjectForm st None (POST request) = true →
     let cleaned := cleaned_data ProjectForm st None (POST request) in
     projects ProjectForm request st
     = (HttpResponseRedirect (reverse "project-list"),
        set_objects
          (<[next_pk (Project_objects st) :=
               mkProject (pd_name cleaned) (pd_client cleaned) None]>
             (Project_objects st))
          st)).
Proof.
  intros Hm. repeat split; intros Hv.
  - unfold clients. by rewrite Hm, Hv.
  - unfold entries. by rewrite Hm, Hv.
  - unfold projects. by rewrite Hm, Hv.
Qed.

Lemma deprecated_create_views_serve_anyone_witness :
  (method anonymous_acme_request = Method.POST
   ∧ user anonymous_acme_request = None
   ∧ is_valid SpecForms.ClientForm sample_state None
       (POST anonymous_acme_request) = true)
  ∧ Client_objects
      (clients SpecForms.ClientForm anonymous_acme_request sample_state).2
      !! 2%N
    = Some (mkClient "Acme" None).
Proof.
  split; [by repeat split|].
  rewrite (proj1 (deprecated_create_views_serve_anyone
                    SpecForms.ClientForm SpecForms.ProjectForm
                    SpecForms.EntryForm anonymous_acme_request sample_state
                    eq_refl) eq_refl).
  reflexivity.
Defined.

(** X18: the deprecated views have no notion of a method that is not
    allowed: whatever is not a POST (HEAD, PUT, PATCH, DELETE, OPTIONS,
    TRACE) is answered exactly as the same request sent as a GET. *)
Theorem deprecated_views_treat_other_methods_as_get
    (ClientForm : FormClass Client ClientData)
    (ProjectForm : FormClass Project ProjectData)
    (EntryForm : FormClass Entry EntryData) request k st :
  method request ≠ Method.POST →
  clients ClientForm request st
  = clients ClientForm (with_method Method.GET request) st
  ∧ client_detail ClientForm request k st
    = client_detail ClientForm (with_method Method.GET request) k st
  ∧ entries EntryForm request st
    = entries EntryForm (with_method Method.GET request) st
  ∧ projects ProjectForm request st
    = projects ProjectForm (with_method Method.GET request) st
  ∧ project_detail ProjectForm request k st
    = project_detail ProjectForm (with_method Method.GET request) k st.
Proof.
  intros Hm.
  unfold clients, client_detail, entries, projects, project_detail.
  simpl. by destruct (method request).
Qed.

Lemma deprecated_views_treat_other_methods_as_get_witness :
  method put_request ≠ Method.POST
  ∧ clients SpecForms.ClientForm put_request own_state
    = clients SpecForms.ClientForm (with_method Method.GET put_request)
        own_state.
Proof.
  assert (method put_request ≠ Method.POST) as Hm by discriminate.
  split; [exact Hm|].
  exact (proj1 (deprecated_views_treat_other_methods_as_get
                  SpecForms.ClientForm SpecForms.ProjectForm
                  SpecForms.EntryForm put_request 1%N own_state Hm)).
Defined.
